(** * Authentication and authorization services of the ToolJet server

    A shallow embedding of [server/src/services/users.service.ts]
    ([UsersService]) and of the authentication service ([AuthService]):
    the relational store is a record of row lists, every [async] method
    is a computation over that store which either returns or throws, and
    the collaborators injected through the constructors (bcrypt, the JWT
    signer, the organization, membership and mail services) are type
    classes. *)

From Stdlib Require Import String Ascii DecimalString DecimalNat List Bool Arith Lia.
Import ListNotations.
Open Scope string_scope.

Set Implicit Arguments.

(** ** JavaScript values *)

(** [!!s] for a string, and for a possibly [undefined] string. *)
Definition truthy (s : string) : bool := negb (s =? "").

Definition truthy_opt (o : option string) : bool :=
  match o with
  | Some s => truthy s
  | None => false
  end.

(** [a || b] where [a] may be [undefined]. *)
Definition or_else (a : option string) (b : option string) : option string :=
  if truthy_opt a then a else b.

(** [a || b] where only [a] may be [undefined]. *)
Definition or_default (a : option string) (b : string) : string :=
  match a with
  | Some v => if truthy v then v else b
  | None => b
  end.

(** [Array.prototype.includes] on an array of strings. *)
Definition includes (l : list string) (x : string) : bool :=
  existsb (String.eqb x) l.

(** A bound query-builder parameter compared with a column: an
    [undefined] parameter is sent as NULL, and a comparison with NULL
    selects no row. *)
Definition eq_param (column : string) (p : option string) : bool :=
  match p with
  | Some v => column =? v
  | None => false
  end.

(** A key of a find-options object compared with a column: a key whose
    value is [undefined] is kept and bound as NULL, which selects no
    row. *)
Definition eq_where (column : string) (p : option string) : bool :=
  match p with
  | Some v => column =? v
  | None => false
  end.

(** A nullable column compared with a string. *)
Definition is_value (column : option string) (v : string) : bool :=
  match column with
  | Some c => c =? v
  | None => false
  end.

(** ** Exceptions *)

Inductive Exception : Type :=
| BadRequestException (message : string)
| NotFoundException (message : string)
| UnauthorizedException (message : string)
| TypeError (message : string)
| Error (message : string).

Inductive Result (A : Type) : Type :=
| Ok (a : A)
| Throw (e : Exception).

Arguments Ok {A} a.
Arguments Throw {A} e.

(** ** Entities

    The entity classes are imported by the services; each record lists
    the columns and properties the services read or write. *)

Module User.
Record t : Type := mk {
  id : string;
  email : string;
  firstName : option string;
  lastName : option string;
  password : string;
  role : option string;
  (* assigned by [login] and [switchOrganization]; [create] leaves it unset *)
  organizationId : option string;
  defaultOrganizationId : string;
  invitationToken : option string;
  forgotPasswordToken : option string
}.
End User.

Module Organization.
Record t : Type := mk {
  id : string;
  name : string
}.
End Organization.

Module OrganizationUser.
Record t : Type := mk {
  id : string;
  userId : string;
  organizationId : string;
  status : string;
  invitationToken : option string
}.
End OrganizationUser.

Module GroupPermission.
Record t : Type := mk {
  id : string;
  organizationId : string;
  group : string;
  appCreate : bool;
  appDelete : bool;
  folderCreate : bool
}.
End GroupPermission.

Module UserGroupPermission.
Record t : Type := mk {
  id : string;
  userId : string;
  groupPermissionId : string
}.
End UserGroupPermission.

Module AppGroupPermission.
Record t : Type := mk {
  id : string;
  appId : string;
  groupPermissionId : string;
  read : bool;
  update : bool;
  delete : bool
}.
End AppGroupPermission.

Module App.
Record t : Type := mk {
  id : string;
  userId : string
}.
End App.

(** [p[action]] read as a condition, for the two kinds of permission
    rows [canAnyGroupPerformAction] receives. *)
Class Permission (P : Type) : Type := {
  flag : string -> P -> bool
}.

#[global] Instance GroupPermission_Permission : Permission GroupPermission.t := {
  flag action p :=
    if action =? "appCreate" then GroupPermission.appCreate p
    else if action =? "appDelete" then GroupPermission.appDelete p
    else if action =? "folderCreate" then GroupPermission.folderCreate p
    else if action =? "id" then truthy (GroupPermission.id p)
    else if action =? "organizationId" then truthy (GroupPermission.organizationId p)
    else if action =? "group" then truthy (GroupPermission.group p)
    else false
}.

#[global] Instance AppGroupPermission_Permission : Permission AppGroupPermission.t := {
  flag action p :=
    if action =? "read" then AppGroupPermission.read p
    else if action =? "update" then AppGroupPermission.update p
    else if action =? "delete" then AppGroupPermission.delete p
    else if action =? "id" then truthy (AppGroupPermission.id p)
    else if action =? "appId" then truthy (AppGroupPermission.appId p)
    else if action =? "groupPermissionId" then truthy (AppGroupPermission.groupPermissionId p)
    else false
}.

(** ** The store and the world around it *)

Record Database : Type := mkDatabase {
  users : list User.t;
  organizations : list Organization.t;
  organization_users : list OrganizationUser.t;
  group_permissions : list GroupPermission.t;
  user_group_permissions : list UserGroupPermission.t;
  app_group_permissions : list AppGroupPermission.t;
  apps : list App.t
}.

Inductive Mail : Type :=
| WelcomeEmail (to : string) (firstName : option string) (invitationToken : option string)
| PasswordResetEmail (to : string) (token : string).

Record World : Type := mkWorld {
  db : Database;
  (* mails handed to the mailer, latest first *)
  outbox : list Mail;
  (* number of identifiers drawn so far *)
  entropy : nat;
  (* process.env *)
  env : list (string * string)
}.

Definition set_db (w : World) (d : Database) : World :=
  mkWorld d (outbox w) (entropy w) (env w).

Definition set_users (d : Database) (l : list User.t) : Database :=
  mkDatabase l (organizations d) (organization_users d) (group_permissions d)
    (user_group_permissions d) (app_group_permissions d) (apps d).

Definition set_organizations (d : Database) (l : list Organization.t) : Database :=
  mkDatabase (users d) l (organization_users d) (group_permissions d)
    (user_group_permissions d) (app_group_permissions d) (apps d).

Definition set_organization_users (d : Database) (l : list OrganizationUser.t) : Database :=
  mkDatabase (users d) (organizations d) l (group_permissions d)
    (user_group_permissions d) (app_group_permissions d) (apps d).

Definition set_group_permissions (d : Database) (l : list GroupPermission.t) : Database :=
  mkDatabase (users d) (organizations d) (organization_users d) l
    (user_group_permissions d) (app_group_permissions d) (apps d).

Definition set_user_group_permissions (d : Database) (l : list UserGroupPermission.t) : Database :=
  mkDatabase (users d) (organizations d) (organization_users d) (group_permissions d)
    l (app_group_permissions d) (apps d).

Fixpoint getenv (e : list (string * string)) (key : string) : option string :=
  match e with
  | [] => None
  | (k, v) :: rest => if k =? key then Some v else getenv rest key
  end.

(** ** Computations: state threaded through, exceptions propagated

    A thrown exception keeps the world as it was when it was thrown:
    writes made before it stay, unless a transaction rolls them back. *)

Definition M (A : Type) : Type := World -> Result A * World.

Definition ret {A} (a : A) : M A := fun w => (Ok a, w).

Definition bind {A B} (m : M A) (k : A -> M B) : M B :=
  fun w =>
    match m w with
    | (Ok a, w') => k a w'
    | (Throw e, w') => (Throw e, w')
    end.

Definition throw {A} (e : Exception) : M A := fun w => (Throw e, w).

Declare Scope monad_scope.
Delimit Scope monad_scope with monad.
Notation "x <- m ;; k" := (bind m (fun x => k))
  (at level 61, m at next level, right associativity) : monad_scope.
Notation "m ;; k" := (bind m (fun _ => k))
  (at level 61, right associativity) : monad_scope.
Open Scope monad_scope.

(** A read of the store. *)
Definition query {A} (f : Database -> A) : M A :=
  fun w => (Ok (f (db w)), w).

(** [process.env[key]] *)
Definition process_env (key : string) : M (option string) :=
  fun w => (Ok (getenv (env w) key), w).

(** A read of the store that may throw. *)
Definition attempt {A} (f : Database -> Result A) : M A :=
  fun w => (f (db w), w).

(** A write to the store. *)
Definition execute (f : Database -> Database) : M unit :=
  fun w => (Ok tt, set_db w (f (db w))).

(** [getManager().transaction(...)]: the writes of a body that throws
    are rolled back. *)
Definition transaction {A} (body : M A) : M A :=
  fun w =>
    match body w with
    | (Ok a, w') => (Ok a, w')
    | (Throw e, w') => (Throw e, set_db w' (db w))
    end.

(** Reading a property of a value that may be [undefined]. *)
Definition deref {A} (o : option A) (property : string) : M A :=
  match o with
  | Some a => ret a
  | None =>
      throw (TypeError ("Cannot read properties of undefined (reading '" ++ property ++ "')"))
  end.

(** [for (const x of l) { await body(x) }] *)
Fixpoint for_of {A} (l : list A) (body : A -> M unit) : M unit :=
  match l with
  | [] => ret tt
  | x :: rest => body x ;; for_of rest body
  end.

(** ** The ORM's repository operations on a table *)

Class Entity (A : Type) : Type := {
  pk : A -> string
}.

#[global] Instance User_Entity : Entity User.t := { pk := User.id }.
#[global] Instance Organization_Entity : Entity Organization.t := { pk := Organization.id }.
#[global] Instance OrganizationUser_Entity : Entity OrganizationUser.t :=
  { pk := OrganizationUser.id }.
#[global] Instance GroupPermission_Entity : Entity GroupPermission.t :=
  { pk := GroupPermission.id }.
#[global] Instance UserGroupPermission_Entity : Entity UserGroupPermission.t :=
  { pk := UserGroupPermission.id }.

Module Repository.
Section Table.
Context {A : Type} `{Entity A}.

(** [findOne({ where })]: the first row the condition selects. *)
Definition findOne (where_ : A -> bool) (rows : list A) : option A :=
  find where_ rows.

(** [getCount()] of a query: the rows the condition selects. *)
Definition getCount (where_ : A -> bool) (rows : list A) : nat :=
  length (filter where_ rows).

(** [update(id, partial)]: every row with that key is patched. *)
Definition update (id : string) (patch : A -> A) (rows : list A) : list A :=
  map (fun r => if pk r =? id then patch r else r) rows.

(** [save(entity)]: the row with the entity's key is replaced; an
    entity with a new key is inserted. *)
Definition save (x : A) (rows : list A) : list A :=
  if existsb (fun r => pk r =? pk x) rows
  then map (fun r => if pk r =? pk x then x else r) rows
  else rows ++ [x].

(** [delete(criteria)]: the rows the criteria select are removed. *)
Definition delete (criteria : A -> bool) (rows : list A) : list A :=
  filter (fun r => negb (criteria r)) rows.
End Table.
End Repository.

(** ** Collaborators *)

(** The [bcrypt] package. *)
Class Bcrypt : Type := {
  hashSync : string -> nat -> string;
  compare : string -> string -> bool
}.

(** The [uuid] package and the keys the store generates: the [n]-th
    identifier drawn. *)
Class Uuid : Type := {
  v4 : nat -> string
}.

Record JwtPayload : Type := mkJwtPayload {
  username : string;
  sub : string;
  organizationId : string
}.

(** [JwtService] of [@nestjs/jwt]. *)
Class JwtService : Type := {
  sign : JwtPayload -> string;
  verify : string -> option JwtPayload
}.

(** A signer whose tokens verify to the payload that was signed. *)
Definition JwtSound `{JwtService} : Prop :=
  forall p, verify (sign p) = Some p.

(** [OrganizationsService], [OrganizationUsersService] and
    [EmailService] are injected into [AuthService]; their sources are
    separate files, so the methods [AuthService] calls are taken as
    they are declared at the call sites. *)
Class OrganizationsService : Type := {
  organizationsService_get : Database -> string -> option Organization.t;
  organizationsService_create : string -> M Organization.t
}.

Class OrganizationUsersService : Type := {
  organizationUsersService_create : User.t -> Organization.t -> M OrganizationUser.t
}.

Class EmailService : Type := {
  sendWelcomeEmail : string -> option string -> option string -> M unit;
  sendPasswordResetEmail : string -> string -> M unit
}.

Section Identifiers.
Context `{Uuid}.

(** [uuid.v4()] *)
Definition uuid_v4 : M string :=
  fun w => (Ok (v4 (entropy w)),
            mkWorld (db w) (outbox w) (S (entropy w)) (env w)).

(** The primary key the store gives a row on insertion. *)
Definition generated_id : M string := uuid_v4.
End Identifiers.

(** * UsersService *)

Module UsersService.

(** [userParams] of [create]. *)
Record UserParams : Type := mkUserParams {
  up_email : string;
  up_firstName : option string;
  up_lastName : option string
}.

(** [params] of [update]; [None] is [undefined], and for the token
    [Some None] is [null]. *)
Record UpdateParams : Type := mkUpdateParams {
  forgotPasswordToken : option (option string);
  password : option string;
  firstName : option string;
  lastName : option string;
  addGroups : option (list string);
  removeGroups : option (list string)
}.

(** [updateableParams] of [update]. *)
Record UpdateableParams : Type := mkUpdateableParams {
  u_forgotPasswordToken : option (option string);
  u_firstName : option string;
  u_lastName : option string;
  u_password : option string
}.

(** [params] of [setupAccountFromInvitationToken]. *)
Record SetupParams : Type := mkSetupParams {
  organization : option string;
  s_password : option string;
  token : string;
  s_role : option string;
  first_name : option string;
  last_name : option string;
  new_signup : bool
}.

(** The transaction handle passed around by [update]. *)
Inductive EntityManager : Type := Manager.

(** [cleanObject] of [helpers/utils.helper], "removing keys with
    undefined values": a key without a value is [None] here already. *)
Definition cleanObject (o : UpdateableParams) : UpdateableParams := o.

(** [{ ...updateableParams }] applied to a row by [manager.update]. *)
Definition patch_user (p : UpdateableParams) (u : User.t) : User.t :=
  User.mk (User.id u) (User.email u)
    (match u_firstName p with Some v => Some v | None => User.firstName u end)
    (match u_lastName p with Some v => Some v | None => User.lastName u end)
    (match u_password p with Some v => v | None => User.password u end)
    (User.role u) (User.organizationId u) (User.defaultOrganizationId u)
    (User.invitationToken u)
    (match u_forgotPasswordToken p with Some v => v | None => User.forgotPasswordToken u end).

Definition findOne (d : Database) (id : string) : option User.t :=
  Repository.findOne (fun u => User.id u =? id) (users d).

(** The rows [users.organizationUsers] joins to a user. *)
Definition organizationUsers (d : Database) (u : User.t) : list OrganizationUser.t :=
  filter (fun ou => OrganizationUser.userId ou =? User.id u) (organization_users d).

(** The rows [users.groupPermissions] joins to a user, through
    [user_group_permissions]. *)
Definition groupPermissionsOf (d : Database) (u : User.t) : list GroupPermission.t :=
  filter
    (fun gp =>
       existsb
         (fun ugp =>
            (UserGroupPermission.userId ugp =? User.id u)
            && (UserGroupPermission.groupPermissionId ugp =? GroupPermission.id gp))
         (user_group_permissions d))
    (group_permissions d).

Definition findByEmail (d : Database) (email : string) (organisationId : option string)
  : option User.t :=
  if negb (truthy_opt organisationId) then
    Repository.findOne (fun u => User.email u =? email) (users d)
  else
    Repository.findOne
      (fun u =>
         existsb
           (fun ou =>
              eq_param (OrganizationUser.organizationId ou) organisationId
              && (OrganizationUser.status ou =? "active"))
           (organizationUsers d u)
         && (User.email u =? email))
      (users d).

Definition findByPasswordResetToken (d : Database) (token : string) : option User.t :=
  Repository.findOne (fun u => is_value (User.forgotPasswordToken u) token) (users d).

Definition status (d : Database) (user : User.t) : Result string :=
  match
    Repository.findOne
      (fun ou => OrganizationUser.userId ou =? User.id user) (organization_users d)
  with
  | Some orgUser => Ok (OrganizationUser.status orgUser)
  | None => Throw (TypeError "Cannot read properties of undefined (reading 'status')")
  end.

(** The count computed by [throwErrorIfRemovingLastActiveAdmin]:
    users joined to a group permission and to a membership row such
    that the membership is not the given user's and is active, and
    the group is 'admin' of the given user's organization. *)
Definition otherActiveAdmins (d : Database) (user : User.t) : nat :=
  Repository.getCount
    (fun u =>
       existsb
         (fun gp =>
            (GroupPermission.group gp =? "admin")
            && eq_param (GroupPermission.organizationId gp) (User.organizationId user))
         (groupPermissionsOf d u)
       && existsb
            (fun ou =>
               negb (OrganizationUser.userId ou =? User.id user)
               && (OrganizationUser.status ou =? "active"))
            (organizationUsers d u))
    (users d).

Definition throwErrorIfRemovingLastActiveAdmin
    (d : Database) (user : option User.t) (removeGroups : option (list string))
  : Result unit :=
  let removeGroups := match removeGroups with Some l => l | None => ["admin"] end in
  let removingAdmin := includes removeGroups "admin" in
  if negb removingAdmin then Ok tt
  else
    match user with
    | None => Throw (TypeError "Cannot read properties of undefined (reading 'id')")
    | Some user =>
        let result := otherActiveAdmins d user in
        if Nat.eqb result 0
        then Throw (BadRequestException "Atleast one active admin is required.")
        else Ok tt
    end.

Definition userGroupPermissions
    (d : Database) (user : User.t) (organizationId : option string)
  : list UserGroupPermission.t :=
  let orgId := or_else organizationId (User.organizationId user) in
  filter
    (fun ugp =>
       existsb
         (fun gp =>
            (GroupPermission.id gp =? UserGroupPermission.groupPermissionId ugp)
            && eq_param (GroupPermission.organizationId gp) orgId)
         (group_permissions d)
       && (UserGroupPermission.userId ugp =? User.id user))
    (user_group_permissions d).

Definition hasGroup
    (d : Database) (user : User.t) (group : string) (organizationId : option string)
  : bool :=
  let orgId := or_else organizationId (User.organizationId user) in
  let result :=
    Repository.getCount
      (fun gp =>
         eq_param (GroupPermission.organizationId gp) orgId
         && (GroupPermission.group gp =? group)
         && existsb
              (fun ugp =>
                 (UserGroupPermission.groupPermissionId ugp =? GroupPermission.id gp)
                 && (UserGroupPermission.userId ugp =? User.id user))
              (user_group_permissions d))
      (group_permissions d) in
  Nat.ltb 0 result.

Definition groupPermissions
    (d : Database) (user : User.t) (organizationId : option string)
  : list GroupPermission.t :=
  let orgUserGroupPermissions := userGroupPermissions d user organizationId in
  let groupIds := map UserGroupPermission.groupPermissionId orgUserGroupPermissions in
  filter (fun gp => includes groupIds (GroupPermission.id gp)) (group_permissions d).

Definition groupPermissionsForOrganization (d : Database) (organizationId : option string)
  : list GroupPermission.t :=
  filter (fun gp => eq_where (GroupPermission.organizationId gp) organizationId)
    (group_permissions d).

Definition appGroupPermissions
    (d : Database) (user : User.t) (appId : option string) (organizationId : option string)
  : list AppGroupPermission.t :=
  let orgUserGroupPermissions := userGroupPermissions d user organizationId in
  let groupIds := map UserGroupPermission.groupPermissionId orgUserGroupPermissions in
  if truthy_opt appId then
    filter
      (fun agp =>
         includes groupIds (AppGroupPermission.groupPermissionId agp)
         && eq_where (AppGroupPermission.appId agp) appId)
      (app_group_permissions d)
  else
    filter (fun agp => includes groupIds (AppGroupPermission.groupPermissionId agp))
      (app_group_permissions d).

Definition canAnyGroupPerformAction {P} `{Permission P} (action : string) (permissions : list P)
  : bool :=
  existsb (fun p => flag action p) permissions.

Definition isUserOwnerOfApp (d : Database) (user : User.t) (appId : option string) : bool :=
  let app :=
    Repository.findOne
      (fun a => eq_where (App.id a) appId && (App.userId a =? User.id user)) (apps d) in
  match app with
  | Some _ => true
  | None => false
  end.

Definition canUserPerformActionOnApp
    (d : Database) (user : User.t) (action : string) (appId : option string) : bool :=
  if action =? "create" then
    canAnyGroupPerformAction "appCreate" (groupPermissions d user None)
  else if (action =? "read") || (action =? "update") then
    canAnyGroupPerformAction action (appGroupPermissions d user appId None)
    || isUserOwnerOfApp d user appId
  else if action =? "delete" then
    canAnyGroupPerformAction "delete" (appGroupPermissions d user appId None)
    || canAnyGroupPerformAction "appDelete" (groupPermissions d user None)
    || isUserOwnerOfApp d user appId
  else false.

Definition canUserPerformActionOnFolder
    (d : Database) (user : User.t) (action : string) (folderId : option string) : bool :=
  if action =? "create" then
    canAnyGroupPerformAction "folderCreate" (groupPermissions d user None)
  else false.

Definition userCan
    (d : Database) (user : User.t) (action : string) (entityName : string)
    (resourceId : option string) : bool :=
  if entityName =? "App" then canUserPerformActionOnApp d user action resourceId
  else if entityName =? "User" then hasGroup d user "admin" None
  else if (entityName =? "Thread") || (entityName =? "Comment") then
    canUserPerformActionOnApp d user "update" resourceId
  else if entityName =? "Folder" then canUserPerformActionOnFolder d user action resourceId
  else false.

Section Writes.
Context `{Bcrypt} `{Uuid}.

Definition insert_user (user : User.t) : M unit :=
  execute (fun d => set_users d (Repository.save user (users d))).

Definition insert_user_group_permission (groupPermissionId userId : string) : M unit :=
  id <- generated_id ;;
  execute
    (fun d =>
       set_user_group_permissions d
         (Repository.save (UserGroupPermission.mk id userId groupPermissionId)
            (user_group_permissions d))).

Definition create
    (userParams : UserParams) (organizationId : string) (groups : option (list string))
  : M User.t :=
  password <- uuid_v4 ;;
  transaction
    (id <- generated_id ;;
     let user :=
       User.mk id (up_email userParams) (up_firstName userParams) (up_lastName userParams)
         password None None organizationId None None in
     insert_user user ;;
     match groups with
     | None => throw (TypeError "groups is not iterable")
     | Some groups =>
         for_of groups
           (fun group =>
              orgGroupPermission <-
                query
                  (fun d =>
                     Repository.findOne
                       (fun gp =>
                          (GroupPermission.organizationId gp =? organizationId)
                          && (GroupPermission.group gp =? group))
                       (group_permissions d)) ;;
              match orgGroupPermission with
              | Some orgGroupPermission =>
                  insert_user_group_permission
                    (GroupPermission.id orgGroupPermission) (User.id user)
              | None =>
                  throw
                    (BadRequestException
                       (group ++ " group does not exist for current organization"))
              end)
     end ;;
     ret user).

Definition findOrCreateByEmail (userParams : UserParams) (organizationId : string)
  : M (User.t * bool) :=
  user <- query (fun d => findByEmail d (up_email userParams) None) ;;
  match user with
  | Some user => ret (user, false)
  | None =>
      user <- create userParams organizationId (Some ["all_users"]) ;;
      ret (user, true)
  end.

(** [organizationsRepository.update(id, { name })]; the repository
    rejects an empty criteria. *)
Definition organizationsRepository_update (id : option string) (name : string) : M unit :=
  match id with
  | Some id =>
      if truthy id then
        execute
          (fun d =>
             set_organizations d
               (Repository.update id (fun o => Organization.mk (Organization.id o) name)
                  (organizations d)))
      else throw (Error "Empty criteria(s) are not allowed for the update method.")
  | None => throw (Error "Empty criteria(s) are not allowed for the update method.")
  end.

(** [Object.assign(user, { firstName, lastName, password, role,
    invitationToken: null })]; a property assigned [undefined] is
    left out of the row's update by [save]. *)
Definition assign_user (user : User.t) (params : SetupParams) : User.t :=
  User.mk (User.id user) (User.email user)
    (match first_name params with Some v => Some v | None => User.firstName user end)
    (match last_name params with Some v => Some v | None => User.lastName user end)
    (match s_password params with Some v => v | None => User.password user end)
    (match s_role params with Some v => Some v | None => User.role user end)
    (User.organizationId user) (User.defaultOrganizationId user)
    None
    (User.forgotPasswordToken user).

(** [Object.assign(organizationUser, { invitationToken: null,
    status: 'active' })] *)
Definition assign_organizationUser (organizationUser : OrganizationUser.t)
  : OrganizationUser.t :=
  OrganizationUser.mk (OrganizationUser.id organizationUser)
    (OrganizationUser.userId organizationUser)
    (OrganizationUser.organizationId organizationUser)
    "active" None.

(** The two lookups of [setupAccountFromInvitationToken]. The
    relation [user.organizationUsers] is loaded with the user, so it
    is an array whenever the user is found. *)
Definition resolveInvitation (params : SetupParams) : M (User.t * OrganizationUser.t) :=
  if new_signup params then
    user <-
      query
        (fun d =>
           Repository.findOne
             (fun u => is_value (User.invitationToken u) (token params)) (users d)) ;;
    match user with
    | None => throw (BadRequestException "Invalid invitation link")
    | Some user =>
        user_organizationUsers <- query (fun d => organizationUsers d user) ;;
        match
          find
            (fun ou => OrganizationUser.organizationId ou =? User.defaultOrganizationId user)
            user_organizationUsers
        with
        | None => throw (BadRequestException "Invalid invitation link")
        | Some organizationUser => ret (user, organizationUser)
        end
    end
  else
    organizationUser <-
      query
        (fun d =>
           Repository.findOne
             (fun ou => is_value (OrganizationUser.invitationToken ou) (token params))
             (organization_users d)) ;;
    match organizationUser with
    | None => throw (BadRequestException "Invalid invitation link")
    | Some organizationUser =>
        (* relations: ['user'] *)
        user <- query (fun d => findOne d (OrganizationUser.userId organizationUser)) ;;
        match user with
        | None => throw (BadRequestException "Invalid invitation link")
        | Some user => ret (user, organizationUser)
        end
    end.

Definition setupAccountFromInvitationToken (params : SetupParams) : M unit :=
  found <- resolveInvitation params ;;
  let '(user, organizationUser) := found in
  execute (fun d => set_users d (Repository.save (assign_user user params) (users d))) ;;
  execute
    (fun d =>
       set_organization_users d
         (Repository.save (assign_organizationUser organizationUser)
            (organization_users d))) ;;
  if new_signup params && truthy_opt (organization params) then
    match organization params with
    | Some name => organizationsRepository_update (User.organizationId user) name
    | None => ret tt
    end
  else ret tt.

Definition addUserGroupPermissions
    (manager : EntityManager) (user : option User.t) (addGroups : option (list string))
  : M unit :=
  match addGroups with
  | None => ret tt
  | Some addGroups =>
      user <- deref user "organizationId" ;;
      orgGroupPermissions <-
        query (fun d => groupPermissionsForOrganization d (User.organizationId user)) ;;
      for_of addGroups
        (fun group =>
           match
             find (fun permission => GroupPermission.group permission =? group)
               orgGroupPermissions
           with
           | Some orgGroupPermission =>
               insert_user_group_permission
                 (GroupPermission.id orgGroupPermission) (User.id user)
           | None =>
               throw
                 (BadRequestException
                    (group ++ " group does not exist for current organization"))
           end)
  end.

Definition removeUserGroupPermissionsIfExists
    (manager : EntityManager) (user : option User.t) (removeGroups : option (list string))
  : M unit :=
  match removeGroups with
  | None => ret tt
  | Some removeGroups =>
      attempt (fun d => throwErrorIfRemovingLastActiveAdmin d user (Some removeGroups)) ;;
      if includes removeGroups "all_users" then
        throw (BadRequestException "Cannot remove user from default group.")
      else
        user <- deref user "organizationId" ;;
        groupPermissions <-
          query
            (fun d =>
               filter
                 (fun gp =>
                    includes removeGroups (GroupPermission.group gp)
                    && eq_where (GroupPermission.organizationId gp)
                         (User.organizationId user))
                 (group_permissions d)) ;;
        let groupIdsToMaybeRemove := map GroupPermission.id groupPermissions in
        execute
          (fun d =>
             set_user_group_permissions d
               (Repository.delete
                  (fun ugp =>
                     includes groupIdsToMaybeRemove
                       (UserGroupPermission.groupPermissionId ugp)
                     && (UserGroupPermission.userId ugp =? User.id user))
                  (user_group_permissions d)))
  end.

Definition update (userId : string) (params : UpdateParams) (manager : option EntityManager)
  : M (option User.t) :=
  let hashedPassword :=
    match password params with
    | Some password => if truthy password then Some (hashSync password 10) else None
    | None => None
    end in
  let updateableParams :=
    cleanObject
      (mkUpdateableParams (forgotPasswordToken params) (firstName params)
         (lastName params) hashedPassword) in
  let performUpdateInTransaction (manager : EntityManager) : M (option User.t) :=
    execute
      (fun d =>
         set_users d (Repository.update userId (patch_user updateableParams) (users d))) ;;
    user <- query (fun d => findOne d userId) ;;
    removeUserGroupPermissionsIfExists manager user (removeGroups params) ;;
    addUserGroupPermissions manager user (addGroups params) ;;
    ret user in
  match manager with
  | Some manager => performUpdateInTransaction manager
  | None => transaction (performUpdateInTransaction Manager)
  end.

End Writes.

End UsersService.

(** * AuthService *)

Module AuthService.

(** [params] of [login]. *)
Record LoginParams : Type := mkLoginParams {
  email : string;
  password : string;
  organizationId : option string
}.

(** The object [login] and [switchOrganization] return, keys as
    [decamelizeKeys] leaves them. *)
Record Session : Type := mkSession {
  id : string;
  auth_token : string;
  s_email : string;
  first_name : option string;
  last_name : option string;
  organization_id : string;
  organization : string;
  admin : bool;
  group_permissions : list GroupPermission.t;
  app_group_permissions : list AppGroupPermission.t
}.

(** [params] of [signup]. *)
Record SignupParams : Type := mkSignupParams {
  su_email : string
}.

(** The empty object [{}] returned by [signup]. *)
Inductive EmptyObject : Type := empty.

(** [user.organizationId = organizationId] on the entity in hand. *)
Definition set_organizationId (user : User.t) (organizationId : string) : User.t :=
  User.mk (User.id user) (User.email user) (User.firstName user) (User.lastName user)
    (User.password user) (User.role user) (Some organizationId)
    (User.defaultOrganizationId user) (User.invitationToken user)
    (User.forgotPasswordToken user).

Section Service.
Context `{Bcrypt} `{Uuid} `{JwtService}.
Context `{OrganizationsService} `{OrganizationUsersService} `{EmailService}.

Definition verifyToken (token : string) : option JwtPayload :=
  verify token.

Definition validateUser (d : Database) (email password : string) (organisationId : option string)
  : option User.t :=
  let user := UsersService.findByEmail d email organisationId in
  match user with
  | None => None
  | Some user =>
      let isVerified := compare password (User.password user) in
      if isVerified then Some user else None
  end.

Definition login (params : LoginParams) : M Session :=
  user <- query (fun d => validateUser d (email params) (password params) (organizationId params)) ;;
  match user with
  | None => throw (UnauthorizedException "Invalid credentials")
  | Some user =>
      user_status <- attempt (fun d => UsersService.status d user) ;;
      if negb (user_status =? "archived") then
        let user_organizationId :=
          or_default (organizationId params) (User.defaultOrganizationId user) in
        let user := set_organizationId user user_organizationId in
        organization <- query (fun d => organizationsService_get d user_organizationId) ;;
        let payload := mkJwtPayload (User.id user) (User.email user) user_organizationId in
        let auth_token := sign payload in
        organization <- deref organization "name" ;;
        admin <- query (fun d => UsersService.hasGroup d user "admin" None) ;;
        group_permissions <- query (fun d => UsersService.groupPermissions d user None) ;;
        app_group_permissions <-
          query (fun d => UsersService.appGroupPermissions d user None None) ;;
        ret (mkSession (User.id user) auth_token (User.email user) (User.firstName user)
               (User.lastName user) user_organizationId (Organization.name organization)
               admin group_permissions app_group_permissions)
      else throw (UnauthorizedException "Invalid credentials")
  end.

Definition switchOrganization (newOrganizationId : string) (user : User.t) : M Session :=
  newUser <-
    query (fun d => UsersService.findByEmail d (User.email user) (Some newOrganizationId)) ;;
  match newUser with
  | None => throw (UnauthorizedException "Invalid credentials")
  | Some newUser =>
      newUser_status <- attempt (fun d => UsersService.status d newUser) ;;
      if negb (newUser_status =? "archived") then
        let newUser := set_organizationId newUser newOrganizationId in
        organization <- query (fun d => organizationsService_get d newOrganizationId) ;;
        let payload := mkJwtPayload (User.id user) (User.email user) newOrganizationId in
        let auth_token := sign payload in
        organization <- deref organization "name" ;;
        admin <- query (fun d => UsersService.hasGroup d newUser "admin" None) ;;
        group_permissions <- query (fun d => UsersService.groupPermissions d newUser None) ;;
        app_group_permissions <-
          query (fun d => UsersService.appGroupPermissions d newUser None None) ;;
        ret (mkSession (User.id newUser) auth_token (User.email newUser)
               (User.firstName newUser) (User.lastName newUser) newOrganizationId
               (Organization.name organization) admin group_permissions
               app_group_permissions)
      else throw (UnauthorizedException "Invalid credentials")
  end.

Definition signup (params : SignupParams) : M EmptyObject :=
  disable_signups <- process_env "DISABLE_SIGNUPS" ;;
  if is_value disable_signups "true" then ret empty
  else
    organization <- organizationsService_create "Untitled organization" ;;
    user <-
      UsersService.create
        (UsersService.mkUserParams (su_email params) None None)
        (Organization.id organization) (Some ["all_users"; "admin"]) ;;
    organizationUsersService_create user organization ;;
    sendWelcomeEmail (User.email user) (User.firstName user) (User.invitationToken user) ;;
    ret empty.

Definition forgotPassword (email : string) : M unit :=
  user <- query (fun d => UsersService.findByEmail d email None) ;;
  forgotPasswordToken <- uuid_v4 ;;
  user <- deref user "id" ;;
  UsersService.update (User.id user)
    (UsersService.mkUpdateParams (Some (Some forgotPasswordToken)) None None None None None)
    None ;;
  sendPasswordResetEmail email forgotPasswordToken.

Definition resetPassword (token password : string) : M unit :=
  user <- query (fun d => UsersService.findByPasswordResetToken d token) ;;
  match user with
  | None => throw (NotFoundException "Invalid token")
  | Some user =>
      UsersService.update (User.id user)
        (UsersService.mkUpdateParams (Some None) (Some password) None None None None)
        None ;;
      ret tt
  end.

End Service.

End AuthService.

(** * The authentication form of the data source editor

    [frontend/src/_ui/OAuth/Authentication.jsx]: the component is a
    function from its props to the element it renders. The handler
    given to a control, [(e) => optionchanged(key, e.target.value)], is
    kept as its [key]. *)

Module Authentication.

(** The props but [optionchanged]; a prop that is not passed is
    [undefined]. *)
Record Props : Type := mkProps {
  auth_type : option string;
  access_token_url : option string;
  client_id : option string;
  client_secret : option string;
  client_auth : option string;
  custom_auth_params : option (list (string * string));
  custom_query_params : option (list (string * string));
  add_token_to : option string;
  header_prefix : option string;
  grant_type : option string;
  scopes : option string;
  username : option string;
  access_token : option string;
  password : option string;
  auth_url : option string
}.

(** What a control displays: a text, or the pairs of a header editor. *)
Inductive Value : Type :=
| Text (v : option string)
| Pairs (v : option (list (string * string))).

#[warnings="-register-all"]
Inductive Element : Type :=
| div (className : option string) (children : list Element)
| hr
| h3 (className : string) (text : string)
| label (className : string) (text : string)
| Input (type : string) (placeholder : option string) (className : string)
    (onChange : string) (value : option string)
| Select (options : list (string * string)) (value : option string) (onChange : string)
| Headers (getter : string) (options : option (list (string * string)))
| nothing.

(** [cond && element]: [false] renders nothing. *)
Definition and_then (cond : bool) (element : Element) : Element :=
  if cond then element else nothing.

Definition Authentication (props : Props) : option Element :=
  if is_value (auth_type props) "oauth2" then
    Some
      (div None
         [hr;
          h3 "text-muted" "Authentication";
          div (Some "row mt-3")
            [label "form-label text-muted" "Grant Type";
             Select [("Authorization Code", "authorization_code")] (grant_type props)
               "grant_type";
             label "form-label text-muted mt-3" "Add Access Token To";
             Select [("Request Header", "header")] (add_token_to props) "add_token_to";
             and_then (is_value (add_token_to props) "header")
               (div (Some "col-md-12")
                  [label "form-label text-muted mt-3" "Header Prefix";
                   Input "text" None "form-control" "header_prefix" (header_prefix props)])];
          div (Some "col-md-12")
            [label "form-label text-muted mt-3" "Access Token URL";
             Input "text" (Some "https://api.example.com/oauth/token") "form-control"
               "access_token_url" (access_token_url props)];
          div (Some "col-md-12")
            [label "form-label text-muted mt-3" "Client ID";
             Input "text" None "form-control" "client_id" (client_id props)];
          div (Some "col-md-12")
            [label "form-label text-muted mt-3" "Client Secret";
             Input "text" None "form-control" "client_secret" (client_secret props)];
          div (Some "col-md-12")
            [label "form-label text-muted mt-3" "Scope(s)";
             Input "text" None "form-control" "scopes" (scopes props)];
          div (Some "row mt-3")
            [div (Some "col") [label "form-label pt-2" "Custom Query Parameters"]];
          Headers "custom_query_params" (custom_query_params props);
          and_then (is_value (grant_type props) "authorization_code")
            (div None
               [div (Some "col-md-12")
                  [label "form-label text-muted mt-3" "Authorization URL";
                   Input "text" (Some "https://api.example.com/oauth/authorize")
                     "form-control" "auth_url" (auth_url props)];
                div (Some "row mt-3")
                  [div (Some "col")
                     [label "form-label pt-2" "Custom Authentication Parameters"]];
                Headers "custom_auth_params" (custom_auth_params props);
                label "form-label text-muted mt-3" "Client Authentication";
                Select
                  [("Send as Basic Auth header", "header");
                   ("Send client credentials in body ", "body")]
                  (client_auth props) "client_auth"])])
  else if is_value (auth_type props) "basic" then
    Some
      (div None
         [div (Some "col-md-12")
            [label "form-label text-muted mt-3" "Username";
             Input "text" None "form-control" "username" (username props)];
          div (Some "col-md-12")
            [label "form-label text-muted mt-3" "Password";
             Input "text" None "form-control" "password" (password props)]])
  else if is_value (auth_type props) "bearer" then
    Some
      (div None
         [div (Some "col-md-12")
            [label "form-label text-muted mt-3" "Access Token";
             Input "text" None "form-control" "access_token" (access_token props)]])
  else None.

(** The prop of a given name. *)
Definition prop (props : Props) (key : string) : option Value :=
  if key =? "auth_type" then Some (Text (auth_type props))
  else if key =? "access_token_url" then Some (Text (access_token_url props))
  else if key =? "client_id" then Some (Text (client_id props))
  else if key =? "client_secret" then Some (Text (client_secret props))
  else if key =? "client_auth" then Some (Text (client_auth props))
  else if key =? "custom_auth_params" then Some (Pairs (custom_auth_params props))
  else if key =? "custom_query_params" then Some (Pairs (custom_query_params props))
  else if key =? "add_token_to" then Some (Text (add_token_to props))
  else if key =? "header_prefix" then Some (Text (header_prefix props))
  else if key =? "grant_type" then Some (Text (grant_type props))
  else if key =? "scopes" then Some (Text (scopes props))
  else if key =? "username" then Some (Text (username props))
  else if key =? "access_token" then Some (Text (access_token props))
  else if key =? "password" then Some (Text (password props))
  else if key =? "auth_url" then Some (Text (auth_url props))
  else None.

(** The controls of an element, in the order they are rendered: the key
    each one reports its changes under, and the value it displays. *)
Fixpoint controls (e : Element) : list (string * Value) :=
  match e with
  | div _ children => flat_map controls children
  | Input _ _ _ onChange value => [(onChange, Text value)]
  | Select _ value onChange => [(onChange, Text value)]
  | Headers getter options => [(getter, Pairs options)]
  | hr | h3 _ _ | label _ _ | nothing => []
  end.

(** The types of the text inputs of an element. *)
Fixpoint input_types (e : Element) : list string :=
  match e with
  | div _ children => flat_map input_types children
  | Input type _ _ _ _ => [type]
  | _ => []
  end.

End Authentication.

(** * Concrete collaborators and a sample store

    Instances of the collaborator classes on which the services run to
    a value, and a small store to run them on. *)

Module Sample.

(** A stand-in for bcrypt: the digest is the password behind a tag. *)
#[local] Instance bcrypt : Bcrypt := {
  hashSync password _ := "$2b$" ++ password;
  compare password digest := digest =? "$2b$" ++ password
}.

(** The [n]-th identifier is [n] in decimal behind a tag. *)
#[local] Instance uuid : Uuid := {
  v4 n := "uuid-" ++ NilEmpty.string_of_uint (Nat.to_uint n)
}.

(** One field of a token: every character behind a [1], then a [0]. *)
Fixpoint encode_field (s rest : string) : string :=
  match s with
  | EmptyString => String "0" rest
  | String c s' => String "1" (String c (encode_field s' rest))
  end.

Fixpoint decode_field (t : string) : option (string * string) :=
  match t with
  | EmptyString => None
  | String m t1 =>
      if Ascii.eqb m "0" then Some (EmptyString, t1)
      else
        match t1 with
        | EmptyString => None
        | String c t2 =>
            match decode_field t2 with
            | Some (s, rest) => Some (String c s, rest)
            | None => None
            end
        end
  end.

(** A stand-in for the JWT signer: the three claims, field by field. *)
#[local] Instance jwt : JwtService := {
  sign p := encode_field (username p) (encode_field (sub p) (encode_field (organizationId p) ""));
  verify t :=
    match decode_field t with
    | Some (u, t1) =>
        match decode_field t1 with
        | Some (s, t2) =>
            match decode_field t2 with
            | Some (o, EmptyString) => Some (mkJwtPayload u s o)
            | _ => None
            end
        | None => None
        end
    | None => None
    end
}.

(** Modelled from the spec: [OrganizationsService], whose source is a
    separate file. [get] resolves an organization by id; [create]
    inserts an organization with the given name, together with the
    groups 'admin' and 'all_users' that [signup] puts its first user
    into. *)
#[local] Instance organizationsService : OrganizationsService := {
  organizationsService_get d id :=
    Repository.findOne (fun o => Organization.id o =? id) (organizations d);
  organizationsService_create name :=
    id <- generated_id ;;
    let organization := Organization.mk id name in
    execute (fun d => set_organizations d (Repository.save organization (organizations d))) ;;
    admin_id <- generated_id ;;
    all_users_id <- generated_id ;;
    execute
      (fun d =>
         set_group_permissions d
           (Repository.save (GroupPermission.mk all_users_id id "all_users" false false false)
              (Repository.save (GroupPermission.mk admin_id id "admin" true true true)
                 (group_permissions d)))) ;;
    ret organization
}.

(** Modelled from the spec: [OrganizationUsersService], whose source is
    a separate file. [create] inserts the membership row linking the
    user to the organization. *)
#[local] Instance organizationUsersService : OrganizationUsersService := {
  organizationUsersService_create user organization :=
    id <- generated_id ;;
    invitationToken <- uuid_v4 ;;
    let organizationUser :=
      OrganizationUser.mk id (User.id user) (Organization.id organization) "invited"
        (Some invitationToken) in
    execute
      (fun d =>
         set_organization_users d (Repository.save organizationUser (organization_users d))) ;;
    ret organizationUser
}.

(** Modelled from the spec: [EmailService], whose source is a separate
    file. Each mail is handed to the mailer. *)
#[local] Instance emailService : EmailService := {
  sendWelcomeEmail to firstName invitationToken :=
    fun w =>
      (Ok tt,
       mkWorld (db w) (WelcomeEmail to firstName invitationToken :: outbox w)
         (entropy w) (env w));
  sendPasswordResetEmail to token :=
    fun w =>
      (Ok tt, mkWorld (db w) (PasswordResetEmail to token :: outbox w) (entropy w) (env w))
}.

Definition alice : User.t :=
  User.mk "u1" "alice@acme.test" (Some "Alice") None "$2b$s3cret" None (Some "o1") "o1"
    None (Some "reset-1").

Definition bob : User.t :=
  User.mk "u2" "bob@acme.test" (Some "Bob") None "$2b$hunter2" None (Some "o1") "o1"
    None None.

(** An invited user who has not yet set up the account. *)
Definition carol : User.t :=
  User.mk "u3" "carol@acme.test" None None "$2b$pending" None (Some "o1") "o1"
    (Some "invite-3") None.

(** A user whose membership has been archived. *)
Definition frank : User.t :=
  User.mk "u5" "frank@acme.test" (Some "Frank") None "$2b$letmein" None (Some "o1") "o1"
    None None.

Definition acme : Organization.t := Organization.mk "o1" "Acme".

Definition admin_group : GroupPermission.t :=
  GroupPermission.mk "g1" "o1" "admin" true true true.

Definition all_users_group : GroupPermission.t :=
  GroupPermission.mk "g2" "o1" "all_users" false false false.

Definition store : Database :=
  mkDatabase
    [alice; bob; carol; frank]
    [acme]
    [OrganizationUser.mk "m1" "u1" "o1" "active" None;
     OrganizationUser.mk "m2" "u2" "o1" "active" None;
     OrganizationUser.mk "m3" "u3" "o1" "invited" (Some "join-3");
     OrganizationUser.mk "m6" "u5" "o1" "archived" None]
    [admin_group; all_users_group]
    [UserGroupPermission.mk "x1" "u1" "g1";
     UserGroupPermission.mk "x2" "u1" "g2";
     UserGroupPermission.mk "x3" "u2" "g1";
     UserGroupPermission.mk "x4" "u2" "g2";
     UserGroupPermission.mk "x5" "u3" "g2";
     UserGroupPermission.mk "x7" "u5" "g2"]
    []
    [App.mk "a1" "u3"].

Definition world : World := mkWorld store [] 0 [].

(** The same installation with public signup switched off. *)
Definition closed_world : World := mkWorld store [] 0 [("DISABLE_SIGNUPS", "true")].

(** A member of no group. *)
Definition grace : User.t :=
  User.mk "u6" "grace@acme.test" (Some "Grace") None "$2b$swordfish" None (Some "o1") "o1"
    None None.

Definition beta : Organization.t := Organization.mk "o2" "Beta".

(** The sample store with grace, with a second organization that bob
    is an active member of, and with the app shared for reading with
    the members of 'all_users'. *)
Definition shared_store : Database :=
  mkDatabase
    (users store ++ [grace])%list
    [acme; beta]
    (organization_users store
     ++ [OrganizationUser.mk "m7" "u6" "o1" "active" None;
         OrganizationUser.mk "m8" "u2" "o2" "active" None])%list
    (group_permissions store)
    (user_group_permissions store)
    [AppGroupPermission.mk "p1" "a1" "g2" true false false]
    (apps store).

Definition shared_world : World := mkWorld shared_store [] 0 [].

(** The props of an OAuth data source. *)
Definition oauth_props : Authentication.Props :=
  Authentication.mkProps (Some "oauth2") (Some "https://idp.test/token") (Some "cid")
    (Some "s3cr3t") (Some "header") (Some [("audience", "api")]) None (Some "header")
    (Some "Bearer") (Some "authorization_code") (Some "read") None None None
    (Some "https://idp.test/authorize").

End Sample.

(** * Vocabulary of the properties *)

(** The user holds the 'admin' group of the given organization. *)
Definition holdsAdminOf (d : Database) (org : option string) (u : User.t) : bool :=
  existsb
    (fun gp => (GroupPermission.group gp =? "admin")
               && eq_param (GroupPermission.organizationId gp) org)
    (UsersService.groupPermissionsOf d u).

(** The user has an active membership in the given organization. *)
Definition activeMemberOf (d : Database) (org : option string) (u : User.t) : bool :=
  existsb
    (fun ou => eq_param (OrganizationUser.organizationId ou) org
               && (OrganizationUser.status ou =? "active"))
    (UsersService.organizationUsers d u).

(** The count as the specification words it: the active members of the
    given user's organization, other than that user, who hold the
    'admin' group. *)
Definition otherActiveAdminMembers (d : Database) (u0 : User.t) : nat :=
  length
    (filter
       (fun u => negb (User.id u =? User.id u0)
                 && activeMemberOf d (User.organizationId u0) u
                 && holdsAdminOf d (User.organizationId u0) u)
       (users d)).

(** The columns [resetPassword] has [update] write for a password. *)
Definition resetPatch `{Bcrypt} (password : string) : UsersService.UpdateableParams :=
  UsersService.mkUpdateableParams (Some None) None None
    (if truthy password then Some (hashSync password 10) else None).

(** The identifiers still to be drawn are pairwise distinct and new to
    the keys of the user rows and of the membership rows of the store. *)
Definition freshIdentifiers `{Uuid} (w : World) : Prop :=
  (forall n m, v4 n = v4 m -> n = m)
  /\ (forall n u, entropy w <= n -> In u (users (db w)) -> User.id u <> v4 n)
  /\ (forall n r, entropy w <= n -> In r (user_group_permissions (db w)) ->
                  UserGroupPermission.id r <> v4 n).

(** The message of the exception thrown for a group the organization
    does not have. *)
Definition noSuchGroup (group : string) : Exception :=
  BadRequestException (group ++ " group does not exist for current organization").

(** Unfolds the plumbing of a computation. *)
Ltac run :=
  unfold bind, ret, throw, query, attempt, execute, deref, process_env; simpl.

(** * Properties *)

(** ** Lists and strings *)

Lemma find_In_true {A} (p : A -> bool) (l : list A) (x : A) :
  In x l -> p x = true -> exists y, find p l = Some y.
Proof.
  induction l as [|a l IH]; simpl; [tauto|].
  intros [->|Hin] Hp.
  - rewrite Hp. eauto.
  - destruct (p a); eauto.
Qed.

Lemma includes_true (l : list string) (x : string) :
  includes l x = true <-> In x l.
Proof.
  unfold includes. rewrite existsb_exists. split.
  - intros (y & Hin & Heq). apply String.eqb_eq in Heq. now subst.
  - intros Hin. exists x. split; [assumption|apply String.eqb_refl].
Qed.

Lemma not_In_cons (x a : string) (l : list string) :
  ~ In x (a :: l) -> (x =? a) = false /\ ~ In x l.
Proof.
  intros Hn. split.
  - apply String.eqb_neq. intros ->. apply Hn. now left.
  - intros Hin. apply Hn. now right.
Qed.

(** ** Authorization decisions *)

Section Authorization.
Variables (d : Database) (user : User.t).

Lemma isUserOwnerOfApp_owner (app : App.t) :
  In app (apps d) ->
  App.userId app = User.id user ->
  UsersService.isUserOwnerOfApp d user (Some (App.id app)) = true.
Proof.
  intros Hin Hown. unfold UsersService.isUserOwnerOfApp, Repository.findOne.
  destruct (find_In_true
              (fun a => eq_where (App.id a) (Some (App.id app))
                        && (App.userId a =? User.id user)) _ _ Hin) as [y ->];
    [|reflexivity].
  simpl. rewrite String.eqb_refl, Hown, String.eqb_refl. reflexivity.
Qed.

(** C1: a user who owns an app may read, update and delete it,
    whatever the group and app-group permissions say: for every app
    row whose [userId] is the user's id, [userCan] on entity 'App' with
    that app's id returns true for each of the three actions. *)
Theorem userCan_owner_of_app (app : App.t) (action : string) :
  In app (apps d) ->
  App.userId app = User.id user ->
  In action ["read"; "update"; "delete"] ->
  UsersService.userCan d user action "App" (Some (App.id app)) = true.
Proof.
  intros Hin Hown Hact.
  pose proof (isUserOwnerOfApp_owner app Hin Hown) as Ho.
  unfold UsersService.userCan. simpl.
  unfold UsersService.canUserPerformActionOnApp. rewrite Ho.
  simpl in Hact. destruct Hact as [<-|[<-|[<-|[]]]]; simpl;
    now rewrite ?orb_true_r.
Qed.

(** C7: the decision denies by default. An entity name other than
    'App', 'User', 'Thread', 'Comment' and 'Folder' is refused; so is
    an action on an app other than 'create', 'read', 'update' and
    'delete', and an action on a folder other than 'create'. *)
Theorem userCan_denies_by_default (action entityName : string) (resourceId : option string) :
  (~ In entityName ["App"; "User"; "Thread"; "Comment"; "Folder"] ->
   UsersService.userCan d user action entityName resourceId = false)
  /\ (~ In action ["create"; "read"; "update"; "delete"] ->
      UsersService.userCan d user action "App" resourceId = false)
  /\ (action <> "create" ->
      UsersService.userCan d user action "Folder" resourceId = false).
Proof.
  repeat split.
  - intros Hn. unfold UsersService.userCan.
    repeat (apply not_In_cons in Hn; destruct Hn as [-> Hn]). reflexivity.
  - intros Hn. unfold UsersService.userCan. simpl.
    unfold UsersService.canUserPerformActionOnApp.
    repeat (apply not_In_cons in Hn; destruct Hn as [-> Hn]). reflexivity.
  - intros Hn. unfold UsersService.userCan. simpl.
    unfold UsersService.canUserPerformActionOnFolder.
    apply String.eqb_neq in Hn. now rewrite Hn.
Qed.

End Authorization.

(** C1, on the sample store: carol owns the app and none of her groups
    grants anything on it. *)
Lemma userCan_owner_of_app_witness :
  UsersService.canAnyGroupPerformAction "delete"
    (UsersService.appGroupPermissions Sample.store Sample.carol (Some "a1") None) = false
  /\ UsersService.canAnyGroupPerformAction "appDelete"
       (UsersService.groupPermissions Sample.store Sample.carol None) = false
  /\ UsersService.userCan Sample.store Sample.carol "delete" "App" (Some "a1") = true.
Proof.
  split; [reflexivity|split; [reflexivity|]].
  apply (userCan_owner_of_app Sample.store Sample.carol (App.mk "a1" "u3") (action := "delete")).
  - simpl. left. reflexivity.
  - reflexivity.
  - simpl. right. right. left. reflexivity.
Defined.

(** C7, on the sample store: an unknown entity, an unknown action on
    an app, and a folder action other than 'create', asked by an admin. *)
Lemma userCan_denies_by_default_witness :
  UsersService.userCan Sample.store Sample.alice "read" "Page" None = false
  /\ UsersService.userCan Sample.store Sample.alice "publish" "App" (Some "a1") = false
  /\ UsersService.userCan Sample.store Sample.alice "delete" "Folder" None = false.
Proof.
  split; [|split].
  - apply (userCan_denies_by_default Sample.store Sample.alice "read" "Page" None).
    simpl. intuition discriminate.
  - apply (userCan_denies_by_default Sample.store Sample.alice "publish" "App" (Some "a1")).
    simpl. intuition discriminate.
  - apply (userCan_denies_by_default Sample.store Sample.alice "delete" "Folder" None).
    discriminate.
Defined.

(** ** Removing groups from a user *)

Lemma filter_length_le {A} (p q : A -> bool) (l : list A) :
  (forall x, In x l -> p x = true -> q x = true) ->
  length (filter p l) <= length (filter q l).
Proof.
  induction l as [|a l IH]; simpl; intros Hpq; [lia|].
  assert (IH' : length (filter p l) <= length (filter q l)) by (apply IH; auto).
  destruct (p a) eqn:Hp.
  - rewrite (Hpq a (or_introl eq_refl) Hp). simpl. lia.
  - destruct (q a); simpl; lia.
Qed.

Lemma filter_none {A} (p : A -> bool) (l : list A) :
  (forall x, In x l -> p x = false) -> filter p l = [].
Proof.
  induction l as [|a l IH]; simpl; intros Hp; [reflexivity|].
  rewrite (Hp a (or_introl eq_refl)). apply IH. auto.
Qed.

Lemma existsb_none {A} (p : A -> bool) (l : list A) :
  (forall x, In x l -> p x = false) -> existsb p l = false.
Proof.
  induction l as [|a l IH]; simpl; intros Hp; [reflexivity|].
  rewrite (Hp a (or_introl eq_refl)). apply IH. auto.
Qed.

Section RemovingGroups.
Variables (w : World) (manager : UsersService.EntityManager) (user : User.t).

(** Every active admin member the specification counts is counted by
    the query of [throwErrorIfRemovingLastActiveAdmin]. *)
Lemma otherActiveAdminMembers_le (d : Database) :
  otherActiveAdminMembers d user <= UsersService.otherActiveAdmins d user.
Proof.
  unfold otherActiveAdminMembers, UsersService.otherActiveAdmins, Repository.getCount.
  apply filter_length_le. intros u _ Hu.
  apply andb_prop in Hu. destruct Hu as [Hu Hadm].
  apply andb_prop in Hu. destruct Hu as [Hne Hact].
  unfold holdsAdminOf in Hadm. rewrite Hadm. simpl.
  unfold activeMemberOf in Hact. apply existsb_exists in Hact.
  destruct Hact as (ou & Hin & Hou). apply existsb_exists. exists ou. split; [assumption|].
  apply andb_prop in Hou. destruct Hou as [_ ->]. rewrite andb_true_r.
  unfold UsersService.organizationUsers in Hin. apply filter_In in Hin.
  destruct Hin as [_ Heq]. apply String.eqb_eq in Heq. rewrite Heq. exact Hne.
Qed.

(** The query of [throwErrorIfRemovingLastActiveAdmin] counts nobody
    when every other holder of the organization's 'admin' group is
    without an active membership. *)
Lemma otherActiveAdmins_none (d : Database) :
  (forall u, In u (users d) ->
             User.id u <> User.id user ->
             holdsAdminOf d (User.organizationId user) u = true ->
             existsb (fun ou => OrganizationUser.status ou =? "active")
               (UsersService.organizationUsers d u) = false) ->
  UsersService.otherActiveAdmins d user = 0.
Proof.
  intros Hnone. unfold UsersService.otherActiveAdmins, Repository.getCount.
  rewrite filter_none; [reflexivity|]. intros u Hin.
  fold (holdsAdminOf d (User.organizationId user) u).
  destruct (holdsAdminOf d (User.organizationId user) u) eqn:Hadm; [simpl|reflexivity].
  apply existsb_none. intros ou Hou.
  destruct (String.eqb_spec (OrganizationUser.userId ou) (User.id user)) as [Heq|Hne];
    [reflexivity|simpl].
  unfold UsersService.organizationUsers in Hou. pose proof Hou as Hou'.
  apply filter_In in Hou'. destruct Hou' as [_ Hid]. apply String.eqb_eq in Hid.
  assert (Hu : User.id u <> User.id user) by congruence.
  specialize (Hnone u Hin Hu Hadm).
  destruct (OrganizationUser.status ou =? "active") eqn:Hst; [|reflexivity].
  assert (Hex : existsb (fun ou => OrganizationUser.status ou =? "active")
                  (UsersService.organizationUsers d u) = true)
    by (apply existsb_exists; exists ou; split; assumption).
  congruence.
Qed.

Lemma throwErrorIfRemovingLastActiveAdmin_result (d : Database) (removeGroups : list string) :
  UsersService.throwErrorIfRemovingLastActiveAdmin d (Some user) (Some removeGroups) = Ok tt
  \/ UsersService.throwErrorIfRemovingLastActiveAdmin d (Some user) (Some removeGroups)
     = Throw (BadRequestException "Atleast one active admin is required.").
Proof.
  unfold UsersService.throwErrorIfRemovingLastActiveAdmin.
  destruct (includes removeGroups "admin"); simpl; [|now left].
  destruct (Nat.eqb _ 0); [now right|now left].
Qed.

(** C4: a list of groups to remove that contains 'all_users' is always
    refused with a BadRequest exception, whatever else the list names
    and whatever the user belongs to, and nothing is written: the world
    after the call is the world before it. *)
Theorem removing_all_users_is_refused (removeGroups : list string) :
  includes removeGroups "all_users" = true ->
  exists message,
    UsersService.removeUserGroupPermissionsIfExists manager (Some user) (Some removeGroups) w
    = (Throw (BadRequestException message), w).
Proof.
  intros Hall. unfold UsersService.removeUserGroupPermissionsIfExists. run.
  destruct (throwErrorIfRemovingLastActiveAdmin_result (db w) removeGroups) as [-> | ->].
  - rewrite Hall. eauto.
  - eauto.
Qed.

End RemovingGroups.

(** C4, on the sample store: bob is asked out of 'all_users' together
    with a group that does not exist. *)
Lemma removing_all_users_is_refused_witness :
  exists message,
    UsersService.removeUserGroupPermissionsIfExists UsersService.Manager (Some Sample.bob)
      (Some ["editors"; "all_users"]) Sample.world
    = (Throw (BadRequestException message), Sample.world).
Proof.
  apply (removing_all_users_is_refused Sample.world UsersService.Manager Sample.bob
           ["editors"; "all_users"]).
  reflexivity.
Defined.

Section LastActiveAdmin.
Variables (w : World) (manager : UsersService.EntityManager) (user : User.t).
Variable removeGroups : list string.
Hypothesis removingAdmin : includes removeGroups "admin" = true.

Lemma last_admin_check_passes :
  0 < otherActiveAdminMembers (db w) user ->
  UsersService.throwErrorIfRemovingLastActiveAdmin (db w) (Some user) (Some removeGroups)
  = Ok tt.
Proof.
  intros Hpos. unfold UsersService.throwErrorIfRemovingLastActiveAdmin.
  rewrite removingAdmin. simpl.
  pose proof (otherActiveAdminMembers_le user (db w)) as Hle.
  destruct (Nat.eqb_spec (UsersService.otherActiveAdmins (db w) user) 0) as [Hz|_];
    [lia|reflexivity].
Qed.

(** C2, as the code has it: when 'admin' is among the groups to remove,
    (1) the call throws BadRequest, writing nothing, if every other
    holder of the organization's 'admin' group is without an active
    membership; (2) if the organization has another active member
    holding 'admin' and 'all_users' is not among the groups, the call
    succeeds and only deletes rows of [user_group_permissions];
    (3) if 'all_users' is among the groups the call throws BadRequest
    even though another active admin exists. *)
Theorem removing_admin_needs_another_active_admin :
  ((forall u, In u (users (db w)) ->
              User.id u <> User.id user ->
              holdsAdminOf (db w) (User.organizationId user) u = true ->
              existsb (fun ou => OrganizationUser.status ou =? "active")
                (UsersService.organizationUsers (db w) u) = false) ->
   UsersService.removeUserGroupPermissionsIfExists manager (Some user) (Some removeGroups) w
   = (Throw (BadRequestException "Atleast one active admin is required."), w))
  /\ (0 < otherActiveAdminMembers (db w) user ->
      includes removeGroups "all_users" = false ->
      exists w',
        UsersService.removeUserGroupPermissionsIfExists manager (Some user) (Some removeGroups) w
        = (Ok tt, w')
        /\ incl (user_group_permissions (db w')) (user_group_permissions (db w))
        /\ users (db w') = users (db w)
        /\ organization_users (db w') = organization_users (db w)
        /\ group_permissions (db w') = group_permissions (db w))
  /\ (0 < otherActiveAdminMembers (db w) user ->
      includes removeGroups "all_users" = true ->
      UsersService.removeUserGroupPermissionsIfExists manager (Some user) (Some removeGroups) w
      = (Throw (BadRequestException "Cannot remove user from default group."), w)).
Proof.
  split; [|split].
  - intros Hnone. unfold UsersService.removeUserGroupPermissionsIfExists. run.
    unfold UsersService.throwErrorIfRemovingLastActiveAdmin.
    rewrite removingAdmin. simpl.
    rewrite (otherActiveAdmins_none user (db w) Hnone). reflexivity.
  - intros Hpos Hall. unfold UsersService.removeUserGroupPermissionsIfExists. run.
    rewrite (last_admin_check_passes Hpos), Hall.
    eexists. split; [reflexivity|]. simpl. repeat split.
    unfold Repository.delete. intros x Hx. apply filter_In in Hx. tauto.
  - intros Hpos Hall. unfold UsersService.removeUserGroupPermissionsIfExists. run.
    rewrite (last_admin_check_passes Hpos), Hall. reflexivity.
Qed.

End LastActiveAdmin.

(** C2 as the specification words it fails on the sample store: bob is
    another active admin of alice's organization, yet removing 'admin'
    and 'all_users' from alice throws BadRequest. *)
Lemma removing_admin_with_all_users_fails :
  ~ (forall (w : World) (user : User.t) (removeGroups : list string),
        includes removeGroups "admin" = true ->
        0 < otherActiveAdminMembers (db w) user ->
        exists w',
          UsersService.removeUserGroupPermissionsIfExists UsersService.Manager (Some user)
            (Some removeGroups) w
          = (Ok tt, w')).
Proof.
  intros Hspec.
  destruct (Hspec Sample.world Sample.alice ["admin"; "all_users"]) as [w' Hw'].
  - reflexivity.
  - vm_compute. lia.
  - vm_compute in Hw'. discriminate.
Qed.

(** C2, on the sample store: removing 'admin' from alice succeeds
    because bob is another active admin; removing it from the only
    admin of a store without bob's membership in the group fails. *)
Lemma removing_admin_needs_another_active_admin_witness :
  (exists w',
      UsersService.removeUserGroupPermissionsIfExists UsersService.Manager (Some Sample.alice)
        (Some ["admin"]) Sample.world
      = (Ok tt, w')
      /\ incl (user_group_permissions (db w')) (user_group_permissions Sample.store)
      /\ users (db w') = users Sample.store
      /\ organization_users (db w') = organization_users Sample.store
      /\ group_permissions (db w') = group_permissions Sample.store)
  /\ UsersService.removeUserGroupPermissionsIfExists UsersService.Manager (Some Sample.bob)
       (Some ["admin"])
       (set_db Sample.world
          (set_user_group_permissions Sample.store
             [UserGroupPermission.mk "x3" "u2" "g1"; UserGroupPermission.mk "x4" "u2" "g2"]))
     = (Throw (BadRequestException "Atleast one active admin is required."),
        set_db Sample.world
          (set_user_group_permissions Sample.store
             [UserGroupPermission.mk "x3" "u2" "g1"; UserGroupPermission.mk "x4" "u2" "g2"])).
Proof.
  split.
  - apply (removing_admin_needs_another_active_admin Sample.world UsersService.Manager
             Sample.alice ["admin"] eq_refl).
    + vm_compute. lia.
    + reflexivity.
  - apply (removing_admin_needs_another_active_admin
             (set_db Sample.world
                (set_user_group_permissions Sample.store
                   [UserGroupPermission.mk "x3" "u2" "g1";
                    UserGroupPermission.mk "x4" "u2" "g2"]))
             UsersService.Manager Sample.bob ["admin"] eq_refl).
    intros u Hin Hne Hadm. simpl in Hin.
    repeat (destruct Hin as [<-|Hin]; [try discriminate Hadm|]);
      [exfalso; apply Hne; reflexivity|destruct Hin].
Defined.

(** The membership the query of [throwErrorIfRemovingLastActiveAdmin]
    reads is not tied to the organization: dave holds 'admin' of
    alice's organization, is archived there and active elsewhere, and
    the check lets alice's 'admin' go although the organization is left
    without an active admin member. *)
Example last_admin_check_reads_memberships_elsewhere :
  let dave := User.mk "u4" "dave@acme.test" None None "$2b$x" None (Some "o2") "o2" None None in
  let d :=
    mkDatabase [Sample.alice; dave] [Sample.acme; Organization.mk "o2" "Other"]
      [OrganizationUser.mk "m1" "u1" "o1" "active" None;
       OrganizationUser.mk "m4" "u4" "o1" "archived" None;
       OrganizationUser.mk "m5" "u4" "o2" "active" None]
      [Sample.admin_group]
      [UserGroupPermission.mk "x1" "u1" "g1"; UserGroupPermission.mk "x6" "u4" "g1"]
      [] [] in
  otherActiveAdminMembers d Sample.alice = 0
  /\ UsersService.otherActiveAdmins d Sample.alice = 1
  /\ UsersService.throwErrorIfRemovingLastActiveAdmin d (Some Sample.alice) (Some ["admin"])
     = Ok tt.
Proof. vm_compute. repeat split. Qed.

(** ** Signing up and asking for a password reset *)

Section Accounts.
Context `{Bcrypt} `{Uuid}.
Context `{OrganizationsService} `{OrganizationUsersService} `{EmailService}.
Variable w : World.

(** C8: with [DISABLE_SIGNUPS] set to "true", [signup] returns the
    empty object and writes nothing: the store, the mails handed to the
    mailer and everything else are as before the call. *)
Theorem signup_disabled_is_empty_success (params : AuthService.SignupParams) :
  getenv (env w) "DISABLE_SIGNUPS" = Some "true" ->
  AuthService.signup params w = (Ok AuthService.empty, w).
Proof.
  intros Henv. unfold AuthService.signup. run. rewrite Henv. reflexivity.
Qed.

(** C10: for an email no user has, [forgotPassword] reads [id] of the
    missing user: it throws a TypeError, which is neither a normal
    return nor one of the Unauthorized, BadRequest and NotFound
    exceptions; the store is not written and no mail is sent. *)
Theorem forgotPassword_unknown_email_is_type_error (email : string) :
  UsersService.findByEmail (db w) email None = None ->
  exists message w',
    AuthService.forgotPassword email w = (Throw (TypeError message), w')
    /\ db w' = db w
    /\ outbox w' = outbox w.
Proof.
  intros Hnone. unfold AuthService.forgotPassword, uuid_v4. run. rewrite Hnone. simpl.
  eexists. eexists. split; [reflexivity|]. split; reflexivity.
Qed.

End Accounts.

Section AccountsOnSample.
#[local] Existing Instance Sample.bcrypt.
#[local] Existing Instance Sample.uuid.
#[local] Existing Instance Sample.organizationsService.
#[local] Existing Instance Sample.organizationUsersService.
#[local] Existing Instance Sample.emailService.

(** C8, on the sample store with signup switched off: nothing is
    written, while the same call on the open installation adds an
    organization, a user and a membership and sends the welcome mail. *)
Lemma signup_disabled_is_empty_success_witness :
  AuthService.signup (AuthService.mkSignupParams "erin@acme.test") Sample.closed_world
  = (Ok AuthService.empty, Sample.closed_world)
  /\ exists w',
       AuthService.signup (AuthService.mkSignupParams "erin@acme.test") Sample.world
       = (Ok AuthService.empty, w')
       /\ outbox w' = [WelcomeEmail "erin@acme.test" None None]
       /\ length (organizations (db w')) = S (length (organizations Sample.store))
       /\ length (users (db w')) = S (length (users Sample.store))
       /\ length (organization_users (db w')) = S (length (organization_users Sample.store)).
Proof.
  split.
  - apply (signup_disabled_is_empty_success Sample.closed_world
             (AuthService.mkSignupParams "erin@acme.test")).
    reflexivity.
  - eexists. split; [cbv; reflexivity|]. repeat split.
Defined.

(** C10, on the sample store: nobody has the address. *)
Lemma forgotPassword_unknown_email_is_type_error_witness :
  exists message w',
    AuthService.forgotPassword "nobody@acme.test" Sample.world = (Throw (TypeError message), w')
    /\ db w' = db Sample.world
    /\ outbox w' = outbox Sample.world.
Proof.
  apply (forgotPassword_unknown_email_is_type_error Sample.world "nobody@acme.test").
  reflexivity.
Defined.

End AccountsOnSample.

(** ** Logging in *)

Section Login.
Context `{Bcrypt} `{JwtService} `{OrganizationsService}.
Variables (w : World) (params : AuthService.LoginParams).

Let email := AuthService.email params.
Let password := AuthService.password params.
Let organisationId := AuthService.organizationId params.

(** What [login] returns for an accepted user. *)
Lemma login_accepted (user : User.t) (st : string) (organization : Organization.t) :
  UsersService.findByEmail (db w) email organisationId = Some user ->
  compare password (User.password user) = true ->
  UsersService.status (db w) user = Ok st ->
  st <> "archived" ->
  organizationsService_get (db w) (or_default organisationId (User.defaultOrganizationId user))
  = Some organization ->
  exists admin group_permissions app_group_permissions,
    AuthService.login params w
    = (Ok (AuthService.mkSession (User.id user)
             (sign (mkJwtPayload (User.id user) (User.email user)
                      (or_default organisationId (User.defaultOrganizationId user))))
             (User.email user) (User.firstName user) (User.lastName user)
             (or_default organisationId (User.defaultOrganizationId user))
             (Organization.name organization)
             admin group_permissions app_group_permissions),
       w).
Proof.
  intros Hfind Hcmp Hst Hna Horg.
  unfold AuthService.login, AuthService.validateUser. run.
  fold email password organisationId. rewrite Hfind, Hcmp, Hst.
  apply String.eqb_neq in Hna. rewrite Hna. simpl. rewrite Horg. simpl.
  eexists. eexists. eexists. reflexivity.
Qed.

(** A login that returns has accepted a user. *)
Lemma login_returns (session : AuthService.Session) (w' : World) :
  AuthService.login params w = (Ok session, w') ->
  exists user st organization,
    UsersService.findByEmail (db w) email organisationId = Some user
    /\ compare password (User.password user) = true
    /\ UsersService.status (db w) user = Ok st
    /\ st <> "archived"
    /\ organizationsService_get (db w)
         (or_default organisationId (User.defaultOrganizationId user))
       = Some organization.
Proof.
  unfold AuthService.login, AuthService.validateUser. run.
  fold email password organisationId.
  destruct (UsersService.findByEmail (db w) email organisationId) as [user|] eqn:Hfind;
    [|discriminate].
  destruct (compare password (User.password user)) eqn:Hcmp; [|discriminate].
  destruct (UsersService.status (db w) user) as [st|e] eqn:Hst; [|discriminate].
  destruct (String.eqb_spec st "archived") as [|Hna]; [discriminate|]. simpl.
  destruct (organizationsService_get (db w)
              (or_default organisationId (User.defaultOrganizationId user)))
    as [organization|] eqn:Horg; [|discriminate].
  intros _. exists user, st, organization. auto.
Qed.

(** C3: [login] returns a session whose token verifies to the claims of
    the same user and of the effective organization when the email
    resolves to a user, the password matches the stored digest and the
    user's status is not 'archived' (the effective organization being
    one the organization service resolves); and it throws one and the
    same Unauthorized exception, leaving the world as it was, when the
    email is unknown, when the password does not match, and when the
    status is 'archived'. *)
Theorem login_accepts_or_is_unauthorized :
  JwtSound ->
  (forall user st organization,
      UsersService.findByEmail (db w) email organisationId = Some user ->
      compare password (User.password user) = true ->
      UsersService.status (db w) user = Ok st ->
      st <> "archived" ->
      organizationsService_get (db w)
        (or_default organisationId (User.defaultOrganizationId user))
      = Some organization ->
      exists session,
        AuthService.login params w = (Ok session, w)
        /\ AuthService.verifyToken (AuthService.auth_token session)
           = Some (mkJwtPayload (User.id user) (User.email user)
                     (or_default organisationId (User.defaultOrganizationId user)))
        /\ AuthService.id session = User.id user
        /\ AuthService.organization_id session
           = or_default organisationId (User.defaultOrganizationId user))
  /\ (UsersService.findByEmail (db w) email organisationId = None ->
      AuthService.login params w = (Throw (UnauthorizedException "Invalid credentials"), w))
  /\ (forall user,
         UsersService.findByEmail (db w) email organisationId = Some user ->
         compare password (User.password user) = false ->
         AuthService.login params w = (Throw (UnauthorizedException "Invalid credentials"), w))
  /\ (forall user,
         UsersService.findByEmail (db w) email organisationId = Some user ->
         compare password (User.password user) = true ->
         UsersService.status (db w) user = Ok "archived" ->
         AuthService.login params w = (Throw (UnauthorizedException "Invalid credentials"), w)).
Proof.
  intros Hjwt. split; [|split; [|split]].
  - intros user st organization Hfind Hcmp Hst Hna Horg.
    destruct (login_accepted Hfind Hcmp Hst Hna Horg) as (a & g & ag & ->).
    eexists. split; [reflexivity|]. simpl. unfold AuthService.verifyToken.
    rewrite Hjwt. auto.
  - intros Hfind. unfold AuthService.login, AuthService.validateUser. run.
    fold email password organisationId. now rewrite Hfind.
  - intros user Hfind Hcmp. unfold AuthService.login, AuthService.validateUser. run.
    fold email password organisationId. now rewrite Hfind, Hcmp.
  - intros user Hfind Hcmp Hst. unfold AuthService.login, AuthService.validateUser. run.
    fold email password organisationId. now rewrite Hfind, Hcmp, Hst.
Qed.

(** C6, as the code has it: the token of every successful login is the
    signature of the claims [username], [sub] and [organizationId],
    where [username] is the user's id, [sub] is the user's email and
    [organizationId] is the effective organization: the one asked for,
    or else the user's default. *)
Theorem login_token_claims (session : AuthService.Session) (w' : World) :
  AuthService.login params w = (Ok session, w') ->
  exists user,
    UsersService.findByEmail (db w) email organisationId = Some user
    /\ AuthService.auth_token session
       = sign {| username := User.id user;
                 sub := User.email user;
                 organizationId := or_default organisationId (User.defaultOrganizationId user) |}
    /\ AuthService.id session = User.id user
    /\ AuthService.s_email session = User.email user
    /\ AuthService.organization_id session
       = or_default organisationId (User.defaultOrganizationId user).
Proof.
  intros Hlogin.
  destruct (login_returns Hlogin) as (user & st & organization & Hfind & Hcmp & Hst & Hna & Horg).
  destruct (login_accepted Hfind Hcmp Hst Hna Horg) as (a & g & ag & Heq).
  rewrite Heq in Hlogin. inversion Hlogin; subst. exists user. simpl. auto.
Qed.

End Login.

Lemma decode_encode_field (s rest : string) :
  Sample.decode_field (Sample.encode_field s rest) = Some (s, rest).
Proof.
  induction s as [|c s IH]; simpl; [reflexivity|]. now rewrite IH.
Qed.

Lemma sample_jwt_sound : @JwtSound Sample.jwt.
Proof.
  intros [u s o]. simpl. now rewrite !decode_encode_field.
Qed.

Section LoginOnSample.
#[local] Existing Instance Sample.bcrypt.
#[local] Existing Instance Sample.jwt.
#[local] Existing Instance Sample.organizationsService.

(** C3, on the sample store: alice logs in; an unknown address, a
    wrong password and the archived frank are refused alike. *)
Lemma login_accepts_or_is_unauthorized_witness :
  (exists session,
      AuthService.login (AuthService.mkLoginParams "alice@acme.test" "s3cret" None) Sample.world
      = (Ok session, Sample.world)
      /\ AuthService.verifyToken (AuthService.auth_token session)
         = Some (mkJwtPayload "u1" "alice@acme.test" "o1")
      /\ AuthService.id session = "u1"
      /\ AuthService.organization_id session = "o1")
  /\ AuthService.login (AuthService.mkLoginParams "nobody@acme.test" "s3cret" None) Sample.world
     = (Throw (UnauthorizedException "Invalid credentials"), Sample.world)
  /\ AuthService.login (AuthService.mkLoginParams "alice@acme.test" "guess" None) Sample.world
     = (Throw (UnauthorizedException "Invalid credentials"), Sample.world)
  /\ AuthService.login (AuthService.mkLoginParams "frank@acme.test" "letmein" None) Sample.world
     = (Throw (UnauthorizedException "Invalid credentials"), Sample.world).
Proof.
  split; [|split; [|split]].
  - destruct (login_accepts_or_is_unauthorized Sample.world
                (AuthService.mkLoginParams "alice@acme.test" "s3cret" None) sample_jwt_sound)
      as (Haccept & _).
    apply (Haccept Sample.alice "active" Sample.acme); try reflexivity. discriminate.
  - destruct (login_accepts_or_is_unauthorized Sample.world
                (AuthService.mkLoginParams "nobody@acme.test" "s3cret" None) sample_jwt_sound)
      as (_ & Hunknown & _).
    apply Hunknown. reflexivity.
  - destruct (login_accepts_or_is_unauthorized Sample.world
                (AuthService.mkLoginParams "alice@acme.test" "guess" None) sample_jwt_sound)
      as (_ & _ & Hwrong & _).
    apply (Hwrong Sample.alice); reflexivity.
  - destruct (login_accepts_or_is_unauthorized Sample.world
                (AuthService.mkLoginParams "frank@acme.test" "letmein" None) sample_jwt_sound)
      as (_ & _ & _ & Harchived).
    apply (Harchived Sample.frank); reflexivity.
Defined.

(** The status read by [login] is that of a membership row: for a user
    without one, [status] reads a property of [undefined] and the
    TypeError escapes [login], whatever the password. *)
Example login_without_membership_is_type_error :
  let d := set_organization_users Sample.store [] in
  exists message,
    AuthService.login (AuthService.mkLoginParams "alice@acme.test" "s3cret" None)
      (set_db Sample.world d)
    = (Throw (TypeError message), set_db Sample.world d).
Proof. eexists. cbv. reflexivity. Qed.

(** C6 as the specification words it fails on the sample store: the
    subject claim [sub] of alice's token is her email, not her id. *)
Lemma login_subject_claim_is_the_email :
  ~ (forall (w w' : World) (params : AuthService.LoginParams) (session : AuthService.Session)
            (claims : JwtPayload),
        AuthService.login params w = (Ok session, w') ->
        AuthService.verifyToken (AuthService.auth_token session) = Some claims ->
        sub claims = AuthService.id session).
Proof.
  intros Hspec.
  assert (Hlogin :
            exists session,
              AuthService.login (AuthService.mkLoginParams "alice@acme.test" "s3cret" None)
                Sample.world
              = (Ok session, Sample.world)
              /\ AuthService.verifyToken (AuthService.auth_token session)
                 = Some (mkJwtPayload "u1" "alice@acme.test" "o1")
              /\ AuthService.id session = "u1").
  { eexists. split; [cbv; reflexivity|]. split; reflexivity. }
  destruct Hlogin as (session & Hlogin & Hverify & Hid).
  specialize (Hspec _ _ _ _ _ Hlogin Hverify). rewrite Hid in Hspec. discriminate.
Qed.

(** C6, on the sample store: alice's token carries her id as
    [username], her email as [sub] and her default organization. *)
Lemma login_token_claims_witness :
  exists session w',
    AuthService.login (AuthService.mkLoginParams "alice@acme.test" "s3cret" None) Sample.world
    = (Ok session, w')
    /\ exists user,
         UsersService.findByEmail Sample.store "alice@acme.test" None = Some user
         /\ AuthService.auth_token session
            = sign {| username := User.id user;
                      sub := User.email user;
                      organizationId := or_default None (User.defaultOrganizationId user) |}
         /\ AuthService.id session = User.id user
         /\ AuthService.s_email session = User.email user
         /\ AuthService.organization_id session
            = or_default None (User.defaultOrganizationId user).
Proof.
  eexists. eexists. split; [cbv; reflexivity|].
  apply (login_token_claims Sample.world
           (AuthService.mkLoginParams "alice@acme.test" "s3cret" None) (w' := Sample.world)).
  reflexivity.
Defined.

End LoginOnSample.

(** ** Resetting a password *)

Lemma find_none_of_all_false {A} (p : A -> bool) (l : list A) :
  (forall x, In x l -> p x = false) -> find p l = None.
Proof.
  induction l as [|a l IH]; simpl; intros Hp; [reflexivity|].
  rewrite (Hp a (or_introl eq_refl)). apply IH. auto.
Qed.

Lemma In_update {A} `{Entity A} (id : string) (patch : A -> A) (rows : list A) (y : A) :
  In y (Repository.update id patch rows) ->
  exists x, In x rows /\ y = (if pk x =? id then patch x else x).
Proof.
  unfold Repository.update. rewrite in_map_iff. intros (x & Hy & Hin). eauto.
Qed.

Section ResetPassword.
Context `{Bcrypt} `{Uuid}.
Variables (w : World) (token password : string).

Lemma resetPassword_found (user : User.t) :
  UsersService.findByPasswordResetToken (db w) token = Some user ->
  AuthService.resetPassword token password w
  = (Ok tt,
     set_db w
       (set_users (db w)
          (Repository.update (User.id user) (UsersService.patch_user (resetPatch password))
             (users (db w))))).
Proof.
  intros Hfind.
  unfold AuthService.resetPassword, UsersService.update, transaction, resetPatch,
    UsersService.cleanObject. run.
  rewrite Hfind. simpl. destruct (truthy password); reflexivity.
Qed.

(** C5, as the code has it: [resetPassword] throws NotFound and leaves
    the world as it was when no user carries the token. When a user
    carries it, the call returns; that user's row has its token set to
    null and its password set to the hash of the new password, except
    that an empty new password leaves the stored password as it was;
    nothing else is written: the other users' rows and the rest of the
    world are as before; and if that user was the only one carrying the
    token, a second call with the token throws NotFound. *)
Theorem resetPassword_is_single_use :
  (UsersService.findByPasswordResetToken (db w) token = None ->
   AuthService.resetPassword token password w
   = (Throw (NotFoundException "Invalid token"), w))
  /\ (forall user,
         UsersService.findByPasswordResetToken (db w) token = Some user ->
         exists w',
           AuthService.resetPassword token password w = (Ok tt, w')
           /\ (exists u', In u' (users (db w')) /\ User.id u' = User.id user)
           /\ (forall u', In u' (users (db w')) ->
                          User.id u' = User.id user ->
                          User.forgotPasswordToken u' = None
                          /\ (password <> "" -> User.password u' = hashSync password 10))
           /\ (forall u, In u (users (db w)) ->
                         User.id u <> User.id user -> In u (users (db w')))
           /\ w'
              = set_db w
                  (set_users (db w)
                     (map
                        (fun u =>
                           if User.id u =? User.id user then
                             User.mk (User.id u) (User.email u) (User.firstName u)
                               (User.lastName u)
                               (if password =? "" then User.password u
                                else hashSync password 10)
                               (User.role u) (User.organizationId u)
                               (User.defaultOrganizationId u) (User.invitationToken u)
                               None
                           else u)
                        (users (db w))))
           /\ ((forall u, In u (users (db w)) ->
                          User.forgotPasswordToken u = Some token ->
                          User.id u = User.id user) ->
               forall password',
                 AuthService.resetPassword token password' w'
                 = (Throw (NotFoundException "Invalid token"), w'))).
Proof.
  split.
  - intros Hnone. unfold AuthService.resetPassword. run. now rewrite Hnone.
  - intros user Hfind. rewrite (resetPassword_found Hfind).
    eexists. split; [reflexivity|]. simpl.
    pose proof Hfind as Hin. unfold UsersService.findByPasswordResetToken in Hin.
    apply find_some in Hin. destruct Hin as [Hin Htok].
    split; [|split; [|split; [|split]]].
    + exists (UsersService.patch_user (resetPatch password) user). split; [|reflexivity].
      unfold Repository.update. apply in_map_iff. exists user. simpl.
      rewrite String.eqb_refl. auto.
    + intros u' Hu' Hid. apply In_update in Hu'. destruct Hu' as (x & Hx & ->).
      simpl in *. destruct (String.eqb_spec (User.id x) (User.id user)) as [Heq|Hne].
      * simpl. split; [reflexivity|]. intros Hpw. unfold truthy.
        apply String.eqb_neq in Hpw. now rewrite Hpw.
      * contradiction.
    + intros u Hu Hne. unfold Repository.update. apply in_map_iff. exists u. simpl.
      apply String.eqb_neq in Hne. rewrite Hne. auto.
    + unfold Repository.update. do 2 f_equal. apply map_ext. intros u. simpl.
      destruct (User.id u =? User.id user); [|reflexivity].
      unfold UsersService.patch_user, resetPatch, truthy. simpl.
      destruct (password =? ""); reflexivity.
    + intros Huniq password'. unfold AuthService.resetPassword. run.
      unfold UsersService.findByPasswordResetToken, Repository.findOne. simpl.
      rewrite find_none_of_all_false; [reflexivity|].
      intros y Hy. apply In_update in Hy. destruct Hy as (x & Hx & ->). simpl.
      destruct (String.eqb_spec (User.id x) (User.id user)) as [Heq|Hne]; [reflexivity|].
      destruct (User.forgotPasswordToken x) as [t|] eqn:Ht; [simpl|reflexivity].
      apply String.eqb_neq. intros ->. apply Hne. now apply Huniq.
Qed.

End ResetPassword.

Section ResetPasswordOnSample.
#[local] Existing Instance Sample.bcrypt.
#[local] Existing Instance Sample.uuid.

(** C5 as the specification words it fails twice. On the sample store
    alice carries the token, and resetting to the empty password clears
    the token but leaves her stored password as it was. On a store
    where bob carries the same token as alice, the first call resets
    alice's password and a second call with the token does not throw
    NotFound: it finds bob. *)
Lemma resetPassword_as_specified_fails :
  ~ (forall (w : World) (token password : string) (user : User.t),
        UsersService.findByPasswordResetToken (db w) token = Some user ->
        exists w',
          AuthService.resetPassword token password w = (Ok tt, w')
          /\ forall u', In u' (users (db w')) ->
                        User.id u' = User.id user ->
                        User.forgotPasswordToken u' = None
                        /\ User.password u' = hashSync password 10)
  /\ ~ (forall (w : World) (token password : string) (user : User.t),
           UsersService.findByPasswordResetToken (db w) token = Some user ->
           exists w',
             AuthService.resetPassword token password w = (Ok tt, w')
             /\ forall password',
                  AuthService.resetPassword token password' w'
                  = (Throw (NotFoundException "Invalid token"), w')).
Proof.
  split.
  - intros Hspec.
    destruct (Hspec Sample.world "reset-1" "" Sample.alice eq_refl) as (w' & Hreset & Hrow).
    cbv in Hreset. injection Hreset as <-.
    destruct (Hrow (User.mk "u1" "alice@acme.test" (Some "Alice") None "$2b$s3cret" None
                      (Some "o1") "o1" None None)) as [_ Hpw].
    + simpl. left. reflexivity.
    + reflexivity.
    + discriminate Hpw.
  - intros Hspec.
    destruct (Hspec
                (set_db Sample.world
                   (set_users Sample.store
                      [Sample.alice;
                       User.mk "u2" "bob@acme.test" (Some "Bob") None "$2b$hunter2" None
                         (Some "o1") "o1" None (Some "reset-1")]))
                "reset-1" "n3w" Sample.alice eq_refl) as (w' & Hreset & Hsecond).
    cbv in Hreset. injection Hreset as <-.
    specialize (Hsecond "again"). cbv in Hsecond. discriminate Hsecond.
Qed.

(** C5, on the sample store: an unknown token is refused; alice's
    token resets her password once; resetting to the empty password
    uses the token up and keeps her password. *)
Lemma resetPassword_is_single_use_witness :
  AuthService.resetPassword "reset-9" "n3w" Sample.world
  = (Throw (NotFoundException "Invalid token"), Sample.world)
  /\ (exists w',
         AuthService.resetPassword "reset-1" "n3w" Sample.world = (Ok tt, w')
         /\ (exists u', In u' (users (db w')) /\ User.id u' = "u1")
         /\ (forall u', In u' (users (db w')) ->
                        User.id u' = "u1" ->
                        User.forgotPasswordToken u' = None
                        /\ ("n3w" <> "" -> User.password u' = "$2b$n3w"))
         /\ (forall u, In u (users Sample.store) -> User.id u <> "u1" -> In u (users (db w')))
         /\ (forall password',
                AuthService.resetPassword "reset-1" password' w'
                = (Throw (NotFoundException "Invalid token"), w')))
  /\ exists w',
       AuthService.resetPassword "reset-1" "" Sample.world = (Ok tt, w')
       /\ users (db w')
          = [User.mk "u1" "alice@acme.test" (Some "Alice") None "$2b$s3cret" None (Some "o1")
               "o1" None None;
             Sample.bob; Sample.carol; Sample.frank]
       /\ outbox w' = [].
Proof.
  split; [|split].
  - destruct (resetPassword_is_single_use Sample.world "reset-9" "n3w") as (Hunknown & _).
    apply Hunknown. reflexivity.
  - destruct (resetPassword_is_single_use Sample.world "reset-1" "n3w") as (_ & Hknown).
    destruct (Hknown Sample.alice eq_refl)
      as (w' & Hrun & Hrow & Hreset & Hkept & _ & Honce).
    exists w'. split; [exact Hrun|]. split; [exact Hrow|]. split; [exact Hreset|].
    split; [exact Hkept|]. apply Honce.
    intros u Hin Htok. simpl in Hin.
    repeat (destruct Hin as [<-|Hin]; [try reflexivity; discriminate Htok|]). destruct Hin.
  - destruct (resetPassword_is_single_use Sample.world "reset-1" "") as (_ & Hknown).
    destruct (Hknown Sample.alice eq_refl) as (w' & Hrun & _ & _ & _ & Hworld & _).
    exists w'. split; [exact Hrun|]. rewrite Hworld. split; reflexivity.
Defined.

End ResetPasswordOnSample.

(** ** Setting up an account from an invitation *)

Lemma In_save {A} `{Entity A} (x : A) (rows : list A) :
  In x (Repository.save x rows).
Proof.
  unfold Repository.save.
  destruct (existsb (fun r => pk r =? pk x) rows) eqn:Hex.
  - apply existsb_exists in Hex. destruct Hex as (r & Hin & Heq).
    apply in_map_iff. exists r. rewrite Heq. auto.
  - apply in_or_app. right. now left.
Qed.

Lemma In_save_same_key {A} `{Entity A} (x y : A) (rows : list A) :
  In y (Repository.save x rows) -> pk y = pk x -> y = x.
Proof.
  unfold Repository.save. intros Hin Hpk.
  destruct (existsb (fun r => pk r =? pk x) rows) eqn:Hex.
  - apply in_map_iff in Hin. destruct Hin as (r & Hy & Hr).
    destruct (String.eqb_spec (pk r) (pk x)) as [_|Hne]; [now subst|].
    subst y. contradiction.
  - apply in_app_or in Hin. destruct Hin as [Hin|[Heq|[]]]; [|now subst].
    assert (Hfalse : (pk y =? pk x) = false).
    { apply Bool.not_true_iff_false. intros Ht.
      assert (Hex' : existsb (fun r => pk r =? pk x) rows = true)
        by (apply existsb_exists; eauto).
      congruence. }
    rewrite Hpk, String.eqb_refl in Hfalse. discriminate.
Qed.

Section Invitation.
Variables (w : World) (params : UsersService.SetupParams).

Let token := UsersService.token params.

(** The lookups only read the store. *)
Lemma resolveInvitation_reads (r : Result (User.t * OrganizationUser.t)) (w' : World) :
  UsersService.resolveInvitation params w = (r, w') -> w' = w.
Proof.
  unfold UsersService.resolveInvitation. run.
  destruct (UsersService.new_signup params).
  - destruct (Repository.findOne _ (users (db w))) as [user|]; [|now intros [= _ <-]].
    simpl. destruct (find _ (UsersService.organizationUsers (db w) user));
      now intros [= _ <-].
  - destruct (Repository.findOne _ (organization_users (db w))) as [ou|];
      [|now intros [= _ <-]].
    simpl. destruct (UsersService.findOne (db w) (OrganizationUser.userId ou));
      now intros [= _ <-].
Qed.

(** The only exception the lookups throw. *)
Lemma resolveInvitation_throws (e : Exception) (w' : World) :
  UsersService.resolveInvitation params w = (Throw e, w') ->
  e = BadRequestException "Invalid invitation link".
Proof.
  unfold UsersService.resolveInvitation. run.
  destruct (UsersService.new_signup params).
  - destruct (Repository.findOne _ (users (db w))) as [user|]; [|now intros [= <- _]].
    simpl. destruct (find _ (UsersService.organizationUsers (db w) user));
      [discriminate|now intros [= <- _]].
  - destruct (Repository.findOne _ (organization_users (db w))) as [ou|];
      [|now intros [= <- _]].
    simpl. destruct (UsersService.findOne (db w) (OrganizationUser.userId ou));
      [discriminate|now intros [= <- _]].
Qed.

(** A failed lookup fails the whole call, before any write. *)
Lemma setupAccount_unresolved (e : Exception) :
  UsersService.resolveInvitation params w = (Throw e, w) ->
  UsersService.setupAccountFromInvitationToken params w = (Throw e, w).
Proof.
  intros Hres. unfold UsersService.setupAccountFromInvitationToken. run.
  now rewrite Hres.
Qed.

(** C9: [setupAccountFromInvitationToken] throws BadRequest, writing
    nothing, when the token is on no user row (new signup) or on no
    membership row (otherwise), and when the row found has no linked
    membership of the user's default organization, respectively no
    linked user. When it returns, the user's row has its invitation
    token set to null, the membership's row has its token set to null
    and its status set to 'active', and, for a new signup given an
    organization name, every organization row whose id is the user's
    [organizationId] carries that name: the organizations after the
    call are those before it, with these rows renamed and the others
    as they were; without a new signup or a name the organizations are
    untouched. *)
Theorem setupAccountFromInvitationToken_activates :
  (UsersService.new_signup params = true ->
   Repository.findOne (fun u => is_value (User.invitationToken u) token) (users (db w)) = None ->
   UsersService.setupAccountFromInvitationToken params w
   = (Throw (BadRequestException "Invalid invitation link"), w))
  /\ (forall user,
         UsersService.new_signup params = true ->
         Repository.findOne (fun u => is_value (User.invitationToken u) token) (users (db w))
         = Some user ->
         find (fun ou => OrganizationUser.organizationId ou =? User.defaultOrganizationId user)
           (UsersService.organizationUsers (db w) user) = None ->
         UsersService.setupAccountFromInvitationToken params w
         = (Throw (BadRequestException "Invalid invitation link"), w))
  /\ (UsersService.new_signup params = false ->
      Repository.findOne (fun ou => is_value (OrganizationUser.invitationToken ou) token)
        (organization_users (db w)) = None ->
      UsersService.setupAccountFromInvitationToken params w
      = (Throw (BadRequestException "Invalid invitation link"), w))
  /\ (forall organizationUser,
         UsersService.new_signup params = false ->
         Repository.findOne (fun ou => is_value (OrganizationUser.invitationToken ou) token)
           (organization_users (db w)) = Some organizationUser ->
         UsersService.findOne (db w) (OrganizationUser.userId organizationUser) = None ->
         UsersService.setupAccountFromInvitationToken params w
         = (Throw (BadRequestException "Invalid invitation link"), w))
  /\ (forall w',
         UsersService.setupAccountFromInvitationToken params w = (Ok tt, w') ->
         exists user organizationUser,
           UsersService.resolveInvitation params w = (Ok (user, organizationUser), w)
           /\ (exists u', In u' (users (db w')) /\ User.id u' = User.id user)
           /\ (forall u', In u' (users (db w')) ->
                          User.id u' = User.id user -> User.invitationToken u' = None)
           /\ (exists ou', In ou' (organization_users (db w'))
                           /\ OrganizationUser.id ou' = OrganizationUser.id organizationUser)
           /\ (forall ou', In ou' (organization_users (db w')) ->
                           OrganizationUser.id ou' = OrganizationUser.id organizationUser ->
                           OrganizationUser.invitationToken ou' = None
                           /\ OrganizationUser.status ou' = "active")
           /\ (forall name o,
                  UsersService.new_signup params = true ->
                  UsersService.organization params = Some name ->
                  name <> "" ->
                  In o (organizations (db w')) ->
                  User.organizationId user = Some (Organization.id o) ->
                  Organization.name o = name)
           /\ (forall name,
                  UsersService.new_signup params = true ->
                  UsersService.organization params = Some name ->
                  name <> "" ->
                  exists id,
                    User.organizationId user = Some id
                    /\ organizations (db w')
                       = map
                           (fun o =>
                              if Organization.id o =? id
                              then Organization.mk (Organization.id o) name
                              else o)
                           (organizations (db w)))
           /\ (UsersService.new_signup params
               && truthy_opt (UsersService.organization params) = false ->
               organizations (db w') = organizations (db w))).
Proof.
  split; [|split; [|split; [|split]]].
  - intros Hnew Hmiss. apply setupAccount_unresolved.
    unfold UsersService.resolveInvitation. run. fold token. now rewrite Hnew, Hmiss.
  - intros user Hnew Hfind Hmiss. apply setupAccount_unresolved.
    unfold UsersService.resolveInvitation. run. fold token.
    rewrite Hnew, Hfind. simpl. now rewrite Hmiss.
  - intros Hnew Hmiss. apply setupAccount_unresolved.
    unfold UsersService.resolveInvitation. run. fold token. now rewrite Hnew, Hmiss.
  - intros ou Hnew Hfind Hmiss. apply setupAccount_unresolved.
    unfold UsersService.resolveInvitation. run. fold token.
    rewrite Hnew, Hfind. simpl. now rewrite Hmiss.
  - intros w'. unfold UsersService.setupAccountFromInvitationToken. run.
    destruct (UsersService.resolveInvitation params w) as [[[user ou]|e] w1] eqn:Hres;
      [|discriminate].
    pose proof (resolveInvitation_reads Hres) as ->. simpl.
    intros Hrun. exists user, ou. split; [reflexivity|].
    assert (Husers : users (db w') = Repository.save (UsersService.assign_user user params)
                                       (users (db w))
                     /\ organization_users (db w')
                        = Repository.save (UsersService.assign_organizationUser ou)
                            (organization_users (db w))
                     /\ (forall name,
                            UsersService.new_signup params = true ->
                            UsersService.organization params = Some name ->
                            name <> "" ->
                            exists id,
                              User.organizationId user = Some id
                              /\ organizations (db w')
                                 = Repository.update id
                                     (fun o => Organization.mk (Organization.id o) name)
                                     (organizations (db w)))
                     /\ (UsersService.new_signup params
                         && truthy_opt (UsersService.organization params) = false ->
                         organizations (db w') = organizations (db w))).
    { destruct (UsersService.new_signup params); simpl in Hrun.
      - destruct (UsersService.organization params) as [name|]; simpl in Hrun.
        + destruct (truthy name) eqn:Hname.
          * unfold UsersService.organizationsRepository_update in Hrun.
            destruct (User.organizationId user) as [id|]; [|discriminate].
            destruct (truthy id); [|discriminate]. run. injection Hrun as <-. simpl.
            split; [reflexivity|]. split; [reflexivity|]. split.
            -- intros name' _ [= <-] _. eauto.
            -- rewrite Hname. discriminate.
          * injection Hrun as <-. simpl.
            split; [reflexivity|]. split; [reflexivity|]. split; [|reflexivity].
            intros name' _ [= <-] Hne.
            unfold truthy in Hname. apply String.eqb_neq in Hne. rewrite Hne in Hname.
            discriminate.
        + injection Hrun as <-. simpl.
          split; [reflexivity|]. split; [reflexivity|]. split; [discriminate|reflexivity].
      - injection Hrun as <-. simpl.
        split; [reflexivity|]. split; [reflexivity|]. split; [discriminate|reflexivity]. }
    destruct Husers as (Hu & Hou & Horg & Hsame). rewrite Hu, Hou.
    split; [|split; [|split; [|split; [|split; [|split]]]]].
    + exists (UsersService.assign_user user params). split; [apply In_save|reflexivity].
    + intros u' Hin Hid.
      now rewrite (In_save_same_key _ _ _ Hin Hid).
    + exists (UsersService.assign_organizationUser ou). split; [apply In_save|reflexivity].
    + intros ou' Hin Hid.
      now rewrite (In_save_same_key _ _ _ Hin Hid).
    + intros name o Hnew Hname Hne Hin Hid.
      destruct (Horg name Hnew Hname Hne) as (id & Hid' & Horgs).
      rewrite Horgs in Hin. apply In_update in Hin. destruct Hin as (x & Hx & ->).
      rewrite Hid' in Hid.
      destruct (String.eqb_spec (pk x) id) as [Heq|Hneq]; simpl in *.
      * reflexivity.
      * injection Hid as Hid. congruence.
    + exact Horg.
    + exact Hsame.
Qed.

End Invitation.

(** C9, on the sample store: a token nobody carries is refused; carol
    sets up her account from the token on her user row and names her
    organization. *)
Lemma setupAccountFromInvitationToken_activates_witness :
  UsersService.setupAccountFromInvitationToken
    (UsersService.mkSetupParams None (Some "pw") "bogus" None None None true) Sample.world
  = (Throw (BadRequestException "Invalid invitation link"), Sample.world)
  /\ exists w',
       UsersService.setupAccountFromInvitationToken
         (UsersService.mkSetupParams (Some "Carol Inc") (Some "pw") "invite-3" None
            (Some "Carol") None true)
         Sample.world
       = (Ok tt, w')
       /\ (forall u', In u' (users (db w')) -> User.id u' = "u3" ->
                      User.invitationToken u' = None)
       /\ (forall ou', In ou' (organization_users (db w')) ->
                       OrganizationUser.id ou' = "m3" ->
                       OrganizationUser.invitationToken ou' = None
                       /\ OrganizationUser.status ou' = "active")
       /\ (forall o, In o (organizations (db w')) ->
                     Organization.id o = "o1" -> Organization.name o = "Carol Inc")
       /\ organizations (db w') = [Organization.mk "o1" "Carol Inc"].
Proof.
  split.
  - destruct (setupAccountFromInvitationToken_activates Sample.world
                (UsersService.mkSetupParams None (Some "pw") "bogus" None None None true))
      as (Hmiss & _).
    apply Hmiss; reflexivity.
  - destruct (setupAccountFromInvitationToken_activates Sample.world
                (UsersService.mkSetupParams (Some "Carol Inc") (Some "pw") "invite-3" None
                   (Some "Carol") None true))
      as (_ & _ & _ & _ & Hdone).
    eexists. split; [cbv; reflexivity|].
    edestruct Hdone as (user & ou & Hres & _ & Huser & _ & Hou & Horg & Hrenamed & _);
      [cbv; reflexivity|].
    cbv in Hres. injection Hres as <- <-.
    split; [exact Huser|]. split; [exact Hou|]. split.
    + intros o Hin Hid. apply (Horg "Carol Inc" o); try reflexivity; try assumption.
      * discriminate.
      * simpl. now rewrite Hid.
    + destruct (Hrenamed "Carol Inc" eq_refl eq_refl) as (id & Hid & Horgs);
        [discriminate|].
      injection Hid as <-. exact Horgs.
Defined.

(** ** Who is granted what *)

Lemma count_positive {A} (p : A -> bool) (l : list A) :
  Nat.ltb 0 (Repository.getCount p l) = true <-> exists x, In x l /\ p x = true.
Proof.
  unfold Repository.getCount. split.
  - intros Hpos. apply Nat.ltb_lt in Hpos.
    destruct (filter p l) as [|x rest] eqn:Hf; [simpl in Hpos; lia|].
    assert (Hin : In x (filter p l)) by (rewrite Hf; now left).
    apply filter_In in Hin. eauto.
  - intros (x & Hin & Hp). apply Nat.ltb_lt.
    assert (Hx : In x (filter p l)) by (apply filter_In; auto).
    destruct (filter p l); [destruct Hx|simpl; lia].
Qed.

Lemma NoDup_map_eq {A B} (f : A -> B) (l : list A) (a b : A) :
  NoDup (map f l) -> In a l -> In b l -> f a = f b -> a = b.
Proof.
  induction l as [|x l IH]; simpl; [tauto|].
  intros Hnd Ha Hb Hf. inversion Hnd as [|y ys Hnotin Hnd']; subst.
  destruct Ha as [->|Ha], Hb as [->|Hb]; auto.
  - exfalso. apply Hnotin. rewrite Hf. now apply in_map.
  - exfalso. apply Hnotin. rewrite <- Hf. now apply in_map.
Qed.

Section Grants.
Variables (d : Database) (user : User.t).

(** The membership rows [userGroupPermissions] returns. *)
Lemma userGroupPermissions_In (ugp : UserGroupPermission.t) :
  In ugp (UsersService.userGroupPermissions d user None)
  <-> In ugp (user_group_permissions d)
      /\ UserGroupPermission.userId ugp = User.id user
      /\ exists gp, In gp (group_permissions d)
                    /\ GroupPermission.id gp = UserGroupPermission.groupPermissionId ugp
                    /\ User.organizationId user = Some (GroupPermission.organizationId gp).
Proof.
  unfold UsersService.userGroupPermissions, or_else. simpl.
  rewrite filter_In, andb_true_iff, existsb_exists, String.eqb_eq.
  split.
  - intros (Hin & (gp & Hgp & Hc) & Hu). apply andb_prop in Hc. destruct Hc as [Hid Horg].
    apply String.eqb_eq in Hid. unfold eq_param in Horg.
    destruct (User.organizationId user) as [o|]; [|discriminate].
    apply String.eqb_eq in Horg. subst o. eauto 8.
  - intros (Hin & Hu & gp & Hgp & Hid & Horg). repeat split; auto.
    exists gp. split; [assumption|]. rewrite Horg. simpl.
    rewrite Hid, !String.eqb_refl. reflexivity.
Qed.

Lemma hasGroup_iff (group : string) :
  UsersService.hasGroup d user group None = true
  <-> exists gp ugp,
        In gp (group_permissions d)
        /\ In ugp (user_group_permissions d)
        /\ User.organizationId user = Some (GroupPermission.organizationId gp)
        /\ GroupPermission.group gp = group
        /\ UserGroupPermission.groupPermissionId ugp = GroupPermission.id gp
        /\ UserGroupPermission.userId ugp = User.id user.
Proof.
  unfold UsersService.hasGroup, or_else. simpl. rewrite count_positive. split.
  - intros (gp & Hgp & Hc).
    apply andb_prop in Hc. destruct Hc as [Hc Hex].
    apply andb_prop in Hc. destruct Hc as [Horg Hgr].
    apply existsb_exists in Hex. destruct Hex as (ugp & Hugp & Hl).
    apply andb_prop in Hl. destruct Hl as [Hid Hu].
    apply String.eqb_eq in Hgr, Hid, Hu. unfold eq_param in Horg.
    destruct (User.organizationId user) as [o|]; [|discriminate].
    apply String.eqb_eq in Horg. subst o. exists gp, ugp. auto 8.
  - intros (gp & ugp & Hgp & Hugp & Horg & Hgr & Hid & Hu).
    exists gp. split; [assumption|]. rewrite Horg. simpl.
    rewrite Hgr, !String.eqb_refl. simpl.
    apply existsb_exists. exists ugp. split; [assumption|].
    rewrite Hid, Hu, !String.eqb_refl. reflexivity.
Qed.

(** X1: on entity 'User' the decision does not look at the action or
    at the resource: it is granted exactly to the users with a
    membership row in a group named 'admin' of their organization. *)
Theorem userCan_on_users_iff_admin (action : string) (resourceId : option string) :
  UsersService.userCan d user action "User" resourceId = true
  <-> exists gp ugp,
        In gp (group_permissions d)
        /\ In ugp (user_group_permissions d)
        /\ User.organizationId user = Some (GroupPermission.organizationId gp)
        /\ GroupPermission.group gp = "admin"
        /\ UserGroupPermission.groupPermissionId ugp = GroupPermission.id gp
        /\ UserGroupPermission.userId ugp = User.id user.
Proof.
  unfold UsersService.userCan. simpl. apply hasGroup_iff.
Qed.

(** X2: a user without a membership row in a group of the organization
    is granted nothing by groups: creating an app or a folder is
    refused, and reading, updating and deleting an app is granted
    exactly when the user owns it. *)
Theorem userCan_without_groups (resourceId : option string) :
  UsersService.userGroupPermissions d user None = [] ->
  UsersService.userCan d user "create" "App" resourceId = false
  /\ UsersService.userCan d user "create" "Folder" resourceId = false
  /\ forall action,
       In action ["read"; "update"; "delete"] ->
       UsersService.userCan d user action "App" resourceId
       = UsersService.isUserOwnerOfApp d user resourceId.
Proof.
  intros Hnone.
  assert (Hgp : UsersService.groupPermissions d user None = []).
  { unfold UsersService.groupPermissions. rewrite Hnone. simpl.
    apply filter_none. reflexivity. }
  assert (Hagp : UsersService.appGroupPermissions d user resourceId None = []).
  { unfold UsersService.appGroupPermissions. rewrite Hnone. simpl.
    destruct (truthy_opt resourceId); apply filter_none; reflexivity. }
  unfold UsersService.userCan. simpl.
  unfold UsersService.canUserPerformActionOnApp, UsersService.canUserPerformActionOnFolder.
  rewrite Hgp, Hagp. simpl. repeat split.
  intros action [<-|[<-|[<-|[]]]]; reflexivity.
Qed.

(** X3: reading or updating an app is granted exactly to its owner and
    to the members of a group of their organization that has an
    app-group permission row for that very app with the flag set. *)
Theorem userCan_read_update_iff (action appId : string) :
  In action ["read"; "update"] ->
  appId <> "" ->
  UsersService.userCan d user action "App" (Some appId) = true
  <-> (exists app, In app (apps d) /\ App.id app = appId /\ App.userId app = User.id user)
      \/ (exists agp ugp gp,
             In agp (app_group_permissions d)
             /\ AppGroupPermission.appId agp = appId
             /\ flag action agp = true
             /\ In ugp (user_group_permissions d)
             /\ UserGroupPermission.userId ugp = User.id user
             /\ UserGroupPermission.groupPermissionId ugp
                = AppGroupPermission.groupPermissionId agp
             /\ In gp (group_permissions d)
             /\ GroupPermission.id gp = UserGroupPermission.groupPermissionId ugp
             /\ User.organizationId user = Some (GroupPermission.organizationId gp)).
Proof.
  intros Hact Hne.
  assert (Hbranch :
            UsersService.userCan d user action "App" (Some appId)
            = UsersService.canAnyGroupPerformAction action
                (UsersService.appGroupPermissions d user (Some appId) None)
              || UsersService.isUserOwnerOfApp d user (Some appId)).
  { unfold UsersService.userCan. simpl. unfold UsersService.canUserPerformActionOnApp.
    destruct Hact as [<-|[<-|[]]]; reflexivity. }
  rewrite Hbranch, orb_true_iff.
  assert (Htruthy : truthy appId = true)
    by (unfold truthy; apply String.eqb_neq in Hne; now rewrite Hne).
  split.
  - intros [Hgrant|Hown].
    + right. unfold UsersService.canAnyGroupPerformAction in Hgrant.
      apply existsb_exists in Hgrant. destruct Hgrant as (agp & Hin & Hflag).
      unfold UsersService.appGroupPermissions in Hin. simpl in Hin.
      rewrite Htruthy in Hin. apply filter_In in Hin. destruct Hin as [Hagp Hc].
      apply andb_prop in Hc. destruct Hc as [Hinc Happ].
      apply String.eqb_eq in Happ. apply includes_true in Hinc.
      apply in_map_iff in Hinc. destruct Hinc as (ugp & Hid & Hugp).
      apply userGroupPermissions_In in Hugp.
      destruct Hugp as (Hugp & Hu & gp & Hgp & Hgid & Horg).
      exists agp, ugp, gp. auto 10.
    + left. unfold UsersService.isUserOwnerOfApp, Repository.findOne in Hown.
      destruct (find _ (apps d)) as [app|] eqn:Hfind; [|discriminate].
      apply find_some in Hfind. destruct Hfind as [Hin Hc].
      apply andb_prop in Hc. destruct Hc as [Hid Hu]. simpl in Hid.
      apply String.eqb_eq in Hid, Hu. eauto.
  - intros [(app & Hin & Hid & Hu)|(agp & ugp & gp & Hagp & Happ & Hflag & Hugp & Hu & Hl
                                    & Hgp & Hgid & Horg)].
    + right. subst appId. now apply isUserOwnerOfApp_owner.
    + left. unfold UsersService.canAnyGroupPerformAction. apply existsb_exists.
      exists agp. split; [|assumption].
      unfold UsersService.appGroupPermissions. simpl. rewrite Htruthy.
      apply filter_In. split; [assumption|].
      rewrite Happ, String.eqb_refl, andb_true_r. apply includes_true.
      rewrite <- Hl. apply in_map. apply userGroupPermissions_In. eauto 8.
Qed.

(** X4: where the keys of the group permission rows are distinct,
    creating an app is granted exactly to the members of a group of
    their own organization whose [appCreate] flag is set, and creating
    a folder to the members of one whose [folderCreate] flag is set: a
    flag of another organization's group never counts. *)
Theorem userCan_create_iff (entity : string) (resourceId : option string) :
  In entity ["App"; "Folder"] ->
  NoDup (map GroupPermission.id (group_permissions d)) ->
  UsersService.userCan d user "create" entity resourceId = true
  <-> exists gp ugp,
        In gp (group_permissions d)
        /\ In ugp (user_group_permissions d)
        /\ UserGroupPermission.userId ugp = User.id user
        /\ UserGroupPermission.groupPermissionId ugp = GroupPermission.id gp
        /\ User.organizationId user = Some (GroupPermission.organizationId gp)
        /\ (if entity =? "App" then GroupPermission.appCreate gp
            else GroupPermission.folderCreate gp) = true.
Proof.
  intros Hent Hnd.
  assert (Hbranch :
            UsersService.userCan d user "create" entity resourceId
            = existsb
                (fun gp => if entity =? "App" then GroupPermission.appCreate gp
                           else GroupPermission.folderCreate gp)
                (UsersService.groupPermissions d user None)).
  { destruct Hent as [<-|[<-|[]]]; reflexivity. }
  rewrite Hbranch, existsb_exists. unfold UsersService.groupPermissions. split.
  - intros (gp0 & Hin & Hflag). apply filter_In in Hin. destruct Hin as [Hgp0 Hinc].
    apply includes_true in Hinc. apply in_map_iff in Hinc.
    destruct Hinc as (ugp & Hid & Hugp). apply userGroupPermissions_In in Hugp.
    destruct Hugp as (Hugp & Hu & gp & Hgp & Hgid & Horg).
    assert (gp = gp0)
      by (eapply NoDup_map_eq; [exact Hnd|exact Hgp|exact Hgp0|congruence]).
    subst gp0. exists gp, ugp. auto 8.
  - intros (gp & ugp & Hgp & Hugp & Hu & Hl & Horg & Hflag).
    exists gp. split; [|assumption]. apply filter_In. split; [assumption|].
    apply includes_true. rewrite <- Hl. apply in_map.
    apply userGroupPermissions_In. eauto 8.
Qed.

(** X5: on the entities 'Thread' and 'Comment' the action asked for is
    not looked at: for every user, action and resource the decision is
    the one for updating the app given as resource. Hence the owner of
    an app may perform every action on its threads and comments. *)
Theorem userCan_owner_on_threads_and_comments (action entity : string) :
  In entity ["Thread"; "Comment"] ->
  (forall resourceId,
      UsersService.userCan d user action entity resourceId
      = UsersService.userCan d user "update" "App" resourceId)
  /\ (forall app,
         In app (apps d) ->
         App.userId app = User.id user ->
         UsersService.userCan d user action entity (Some (App.id app)) = true).
Proof.
  intros Hent.
  assert (Heq : forall resourceId,
             UsersService.userCan d user action entity resourceId
             = UsersService.userCan d user "update" "App" resourceId)
    by (intros resourceId; destruct Hent as [<-|[<-|[]]]; reflexivity).
  split; [exact Heq|]. intros app Hin Hown. rewrite Heq.
  unfold UsersService.userCan. simpl. unfold UsersService.canUserPerformActionOnApp. simpl.
  rewrite (isUserOwnerOfApp_owner d user app Hin Hown). apply orb_true_r.
Qed.

End Grants.

(** ** Looking a user up by email *)

Section FindByEmail.
Variables (d : Database) (email : string).

(** What the lookup by email returns, with and without an organization. *)
Lemma findByEmail_by_organization :
  UsersService.findByEmail d email (Some "") = UsersService.findByEmail d email None
  /\ forall org,
       org <> "" ->
       (forall u,
           UsersService.findByEmail d email (Some org) = Some u ->
           In u (users d)
           /\ User.email u = email
           /\ exists ou, In ou (organization_users d)
                         /\ OrganizationUser.userId ou = User.id u
                         /\ OrganizationUser.organizationId ou = org
                         /\ OrganizationUser.status ou = "active")
       /\ (UsersService.findByEmail d email (Some org) = None
           <-> forall u ou,
                 In u (users d) ->
                 User.email u = email ->
                 In ou (organization_users d) ->
                 OrganizationUser.userId ou = User.id u ->
                 OrganizationUser.organizationId ou = org ->
                 OrganizationUser.status ou <> "active").
Proof.
  split; [reflexivity|]. intros org Hne.
  assert (Htruthy : truthy org = true)
    by (unfold truthy; apply String.eqb_neq in Hne; now rewrite Hne).
  unfold UsersService.findByEmail, Repository.findOne. simpl. rewrite Htruthy. simpl.
  split.
  - intros u Hfind. apply find_some in Hfind. destruct Hfind as [Hin Hc].
    apply andb_prop in Hc. destruct Hc as [Hex Hem]. apply String.eqb_eq in Hem.
    apply existsb_exists in Hex. destruct Hex as (ou & Hou & Hc).
    apply andb_prop in Hc. destruct Hc as [Ho Hs]. apply String.eqb_eq in Ho, Hs.
    unfold UsersService.organizationUsers in Hou. apply filter_In in Hou.
    destruct Hou as [Hou Hu]. apply String.eqb_eq in Hu. eauto 8.
  - split.
    + intros Hnone u ou Hu Hem Hou Hid Horg Hst.
      pose proof (find_none _ _ Hnone u Hu) as Hf. simpl in Hf.
      rewrite Hem, String.eqb_refl, andb_true_r in Hf.
      assert (Hex : existsb
                      (fun ou => (OrganizationUser.organizationId ou =? org)
                                 && (OrganizationUser.status ou =? "active"))
                      (UsersService.organizationUsers d u) = true).
      { apply existsb_exists. exists ou. split.
        - unfold UsersService.organizationUsers. apply filter_In. split; [assumption|].
          rewrite Hid. apply String.eqb_refl.
        - rewrite Horg, Hst, !String.eqb_refl. reflexivity. }
      congruence.
    + intros Hall. apply find_none_of_all_false. intros u Hu.
      destruct (String.eqb_spec (User.email u) email) as [Hem|_];
        [rewrite andb_true_r|apply andb_false_r].
      apply existsb_none. intros ou Hou.
      unfold UsersService.organizationUsers in Hou. apply filter_In in Hou.
      destruct Hou as [Hou Hid]. apply String.eqb_eq in Hid.
      destruct (String.eqb_spec (OrganizationUser.organizationId ou) org) as [Horg|_];
        [simpl|reflexivity].
      apply String.eqb_neq. now apply (Hall u ou).
Qed.

(** X6: an empty organization id is no organization id: the lookup is
    then by email alone. With a non-empty one, the user found has that
    email and an active membership row in that organization, and
    nobody is found exactly when no user with that email has such a
    row. *)
Theorem findByEmail_scoped :
  UsersService.findByEmail d email (Some "") = UsersService.findByEmail d email None
  /\ forall org,
       org <> "" ->
       (forall u,
           UsersService.findByEmail d email (Some org) = Some u ->
           In u (users d)
           /\ User.email u = email
           /\ exists ou, In ou (organization_users d)
                         /\ OrganizationUser.userId ou = User.id u
                         /\ OrganizationUser.organizationId ou = org
                         /\ OrganizationUser.status ou = "active")
       /\ (UsersService.findByEmail d email (Some org) = None
           <-> forall u ou,
                 In u (users d) ->
                 User.email u = email ->
                 In ou (organization_users d) ->
                 OrganizationUser.userId ou = User.id u ->
                 OrganizationUser.organizationId ou = org ->
                 OrganizationUser.status ou <> "active").
Proof. exact findByEmail_by_organization. Qed.

End FindByEmail.

(** ** Sessions *)

Section Sessions.
Context `{Bcrypt} `{JwtService} `{OrganizationsService}.
Variable w : World.

(** X7: [login] and [switchOrganization] only read: whether they
    return or throw, the world after the call is the world before it. *)
Theorem sessions_never_write :
  (forall params r w', AuthService.login params w = (r, w') -> w' = w)
  /\ (forall newOrganizationId user r w',
         AuthService.switchOrganization newOrganizationId user w = (r, w') -> w' = w).
Proof.
  split.
  - intros params r w'. unfold AuthService.login. run.
    destruct (AuthService.validateUser _ _ _ _) as [user|]; [|now intros [= _ <-]].
    destruct (UsersService.status (db w) user) as [st|e]; [|now intros [= _ <-]].
    destruct (negb (st =? "archived")); [|now intros [= _ <-]]. simpl.
    destruct (organizationsService_get _ _); now intros [= _ <-].
  - intros newOrganizationId user r w'. unfold AuthService.switchOrganization. run.
    destruct (UsersService.findByEmail _ _ _) as [newUser|]; [|now intros [= _ <-]].
    destruct (UsersService.status (db w) newUser) as [st|e]; [|now intros [= _ <-]].
    destruct (negb (st =? "archived")); [|now intros [= _ <-]]. simpl.
    destruct (organizationsService_get _ _); now intros [= _ <-].
Qed.

(** X8: switching to a non-empty organization id returns a session
    only for a user with the caller's email who has an active
    membership row in that organization; the token is then signed for
    the caller's id and email and for the new organization. When no
    user with that email has such a row, the switch throws
    Unauthorized. *)
Theorem switchOrganization_needs_active_membership
    (newOrganizationId : string) (user : User.t) :
  newOrganizationId <> "" ->
  (forall session w',
      AuthService.switchOrganization newOrganizationId user w = (Ok session, w') ->
      AuthService.auth_token session
      = sign {| username := User.id user;
                sub := User.email user;
                organizationId := newOrganizationId |}
      /\ AuthService.organization_id session = newOrganizationId
      /\ exists newUser ou,
           In newUser (users (db w))
           /\ User.email newUser = User.email user
           /\ AuthService.id session = User.id newUser
           /\ In ou (organization_users (db w))
           /\ OrganizationUser.userId ou = User.id newUser
           /\ OrganizationUser.organizationId ou = newOrganizationId
           /\ OrganizationUser.status ou = "active")
  /\ ((forall u ou,
          In u (users (db w)) ->
          User.email u = User.email user ->
          In ou (organization_users (db w)) ->
          OrganizationUser.userId ou = User.id u ->
          OrganizationUser.organizationId ou = newOrganizationId ->
          OrganizationUser.status ou <> "active") ->
      AuthService.switchOrganization newOrganizationId user w
      = (Throw (UnauthorizedException "Invalid credentials"), w)).
Proof.
  intros Hne.
  destruct (findByEmail_by_organization (db w) (User.email user)) as [_ Hscoped].
  destruct (Hscoped newOrganizationId Hne) as [Hsound Hnone].
  split.
  - intros session w'. unfold AuthService.switchOrganization. run.
    destruct (UsersService.findByEmail (db w) (User.email user) (Some newOrganizationId))
      as [newUser|] eqn:Hfind; [|discriminate].
    destruct (UsersService.status (db w) newUser) as [st|e]; [|discriminate].
    destruct (negb (st =? "archived")); [|discriminate]. simpl.
    destruct (organizationsService_get _ _); [|discriminate]. simpl.
    intros [= <- _]. simpl. split; [reflexivity|]. split; [reflexivity|].
    destruct (Hsound newUser eq_refl) as (Hin & Hem & ou & Hou & Hid & Horg & Hst).
    exists newUser, ou. auto 10.
  - intros Hall. unfold AuthService.switchOrganization. run.
    apply Hnone in Hall. now rewrite Hall.
Qed.

End Sessions.

(** ** Putting a user into groups *)

Lemma save_new_key {A} `{Entity A} (x : A) (rows : list A) :
  (forall r, In r rows -> pk r <> pk x) -> Repository.save x rows = (rows ++ [x])%list.
Proof.
  intros Hnew. unfold Repository.save. rewrite existsb_none; [reflexivity|].
  intros r Hr. apply String.eqb_neq. auto.
Qed.

Section Memberships.
Context `{Uuid}.
Variable lookup : Database -> string -> option GroupPermission.t.
Variable userId : string.
Hypothesis lookup_reads_groups :
  forall d1 d2 group,
    group_permissions d1 = group_permissions d2 -> lookup d1 group = lookup d2 group.

(** One membership row is appended when the identifier drawn is new. *)
Lemma insert_user_group_permission_fresh (w : World) (groupPermissionId : string) :
  freshIdentifiers w ->
  exists w',
    UsersService.insert_user_group_permission groupPermissionId userId w = (Ok tt, w')
    /\ freshIdentifiers w'
    /\ db w'
       = set_user_group_permissions (db w)
           (user_group_permissions (db w)
            ++ [UserGroupPermission.mk (v4 (entropy w)) userId groupPermissionId])%list
    /\ outbox w' = outbox w
    /\ env w' = env w
    /\ entropy w' = S (entropy w).
Proof.
  intros (Hinj & Husers & Hrows).
  unfold UsersService.insert_user_group_permission, generated_id, uuid_v4. run.
  rewrite save_new_key by (intros r Hr; simpl; apply Hrows; [lia|assumption]).
  eexists. split; [reflexivity|]. simpl. repeat split; try assumption.
  - intros n u Hn Hu. simpl in Hn, Hu. apply Husers; [lia|assumption].
  - intros n r Hn Hr. simpl in Hn, Hr. apply in_app_or in Hr.
    destruct Hr as [Hr|[<-|[]]].
    + apply Hrows; [lia|assumption].
    + simpl. intros Heq. apply Hinj in Heq. lia.
Qed.

(** The loop shared by [create] and [addUserGroupPermissions], run on
    groups the organization has: a membership row per group is
    appended and nothing else changes. *)
Lemma memberships_loop_succeeds (groups : list string) :
  forall w,
    freshIdentifiers w ->
    (forall group, In group groups -> lookup (db w) group <> None) ->
    exists w' rows,
      for_of groups
        (fun group =>
           orgGroupPermission <- query (fun d => lookup d group) ;;
           match orgGroupPermission with
           | Some orgGroupPermission =>
               UsersService.insert_user_group_permission
                 (GroupPermission.id orgGroupPermission) userId
           | None => throw (noSuchGroup group)
           end) w
      = (Ok tt, w')
      /\ freshIdentifiers w'
      /\ db w' = set_user_group_permissions (db w) (user_group_permissions (db w) ++ rows)%list
      /\ outbox w' = outbox w
      /\ env w' = env w
      /\ entropy w' = entropy w + length groups
      /\ length rows = length groups
      /\ (forall group, In group groups ->
            exists gp ugp,
              lookup (db w) group = Some gp
              /\ In ugp rows
              /\ UserGroupPermission.userId ugp = userId
              /\ UserGroupPermission.groupPermissionId ugp = GroupPermission.id gp).
Proof.
  induction groups as [|group groups IH]; intros w Hfresh Hall.
  - exists w, []. simpl. unfold ret. rewrite app_nil_r.
    destruct w as [[] ? ? ?]. simpl. repeat split; auto; try apply Hfresh.
    intros group [].
  - simpl. run.
    destruct (lookup (db w) group) as [gp|] eqn:Hgp;
      [|exfalso; apply (Hall group); [now left|assumption]].
    destruct (insert_user_group_permission_fresh (GroupPermission.id gp) Hfresh)
      as (w1 & Hrun & Hfresh1 & Hdb1 & Hout1 & Henv1 & Hent1).
    rewrite Hrun.
    assert (Hgps : group_permissions (db w1) = group_permissions (db w))
      by (rewrite Hdb1; reflexivity).
    destruct (IH w1 Hfresh1)
      as (w' & rows & Hloop & Hfresh' & Hdb' & Hout' & Henv' & Hent' & Hlen & Hrows).
    { intros g Hg. rewrite (lookup_reads_groups _ _ g Hgps). apply Hall. now right. }
    exists w', (UserGroupPermission.mk (v4 (entropy w)) userId (GroupPermission.id gp) :: rows).
    split; [exact Hloop|]. split; [exact Hfresh'|].
    split; [rewrite Hdb', Hdb1; simpl; now rewrite <- app_assoc|].
    split; [congruence|]. split; [congruence|]. split; [simpl; lia|].
    split; [simpl; lia|].
    intros g [<-|Hg].
    + exists gp. eexists. split; [exact Hgp|]. split; [now left|]. split; reflexivity.
    + destruct (Hrows g Hg) as (gp' & ugp & Hl & Hin & Hu & Hid).
      exists gp', ugp. rewrite <- (lookup_reads_groups _ _ g Hgps). auto using in_cons.
Qed.

(** Inserting a membership row returns and writes that table only. *)
Lemma insert_user_group_permission_runs (w : World) (groupPermissionId : string) :
  exists w',
    UsersService.insert_user_group_permission groupPermissionId userId w = (Ok tt, w')
    /\ users (db w') = users (db w)
    /\ group_permissions (db w') = group_permissions (db w)
    /\ outbox w' = outbox w.
Proof.
  unfold UsersService.insert_user_group_permission, generated_id, uuid_v4. run.
  eexists. split; [reflexivity|]. simpl. auto.
Qed.

(** The same loop run on a list that names a group the organization
    does not have throws BadRequest for the first such group. *)
Lemma memberships_loop_fails (groups : list string) :
  forall w,
    (exists group, In group groups /\ lookup (db w) group = None) ->
    exists group w',
      In group groups
      /\ lookup (db w) group = None
      /\ for_of groups
           (fun group =>
              orgGroupPermission <- query (fun d => lookup d group) ;;
              match orgGroupPermission with
              | Some orgGroupPermission =>
                  UsersService.insert_user_group_permission
                    (GroupPermission.id orgGroupPermission) userId
              | None => throw (noSuchGroup group)
              end) w
         = (Throw (noSuchGroup group), w')
      /\ users (db w') = users (db w)
      /\ outbox w' = outbox w.
Proof.
  induction groups as [|group groups IH]; intros w (g & Hg & Hnone); [destruct Hg|].
  simpl. run. destruct (lookup (db w) group) as [gp|] eqn:Hgp.
  - destruct (insert_user_group_permission_runs w (GroupPermission.id gp))
      as (w1 & Hrun & Husers1 & Hgps & Hout1).
    rewrite Hrun.
    destruct Hg as [->|Hg]; [congruence|].
    destruct (IH w1) as (g' & w' & Hin & Hl & Hloop & Husers & Hout).
    { exists g. split; [assumption|]. now rewrite (lookup_reads_groups _ _ g Hgps). }
    exists g', w'. split; [now right|].
    split; [now rewrite <- (lookup_reads_groups _ _ g' Hgps)|].
    split; [exact Hloop|]. split; congruence.
  - exists group, w. split; [now left|]. auto.
Qed.

End Memberships.

(** ** Creating a user *)

Lemma find_app_none {A} (p : A -> bool) (l1 l2 : list A) :
  find p l1 = None -> find p (l1 ++ l2)%list = find p l2.
Proof.
  induction l1 as [|a l1 IH]; simpl; [reflexivity|].
  destruct (p a); [discriminate|assumption].
Qed.

Lemma hasGroup_of_membership (d : Database) (user : User.t) (group org : string)
    (gp : GroupPermission.t) (ugp : UserGroupPermission.t) :
  org <> "" ->
  In gp (group_permissions d) ->
  In ugp (user_group_permissions d) ->
  GroupPermission.organizationId gp = org ->
  GroupPermission.group gp = group ->
  UserGroupPermission.groupPermissionId ugp = GroupPermission.id gp ->
  UserGroupPermission.userId ugp = User.id user ->
  UsersService.hasGroup d user group (Some org) = true.
Proof.
  intros Hne Hgp Hugp Horg Hgr Hid Hu.
  unfold UsersService.hasGroup, or_else. simpl.
  assert (Htruthy : truthy org = true)
    by (unfold truthy; apply String.eqb_neq in Hne; now rewrite Hne).
  rewrite Htruthy. apply count_positive. exists gp. split; [assumption|]. simpl.
  rewrite Horg, Hgr, !String.eqb_refl. simpl.
  apply existsb_exists. exists ugp. split; [assumption|].
  rewrite Hid, Hu, !String.eqb_refl. reflexivity.
Qed.

Section Create.
Context `{Uuid}.
Variables (userParams : UsersService.UserParams) (organizationId : string).

(** [create] up to its loop over the groups. *)
Lemma create_unfold (groups : list string) (w : World) :
  let user :=
    User.mk (v4 (S (entropy w))) (UsersService.up_email userParams)
      (UsersService.up_firstName userParams) (UsersService.up_lastName userParams)
      (v4 (entropy w)) None None organizationId None None in
  UsersService.create userParams organizationId (Some groups) w
  = match
      for_of groups
        (fun group =>
           orgGroupPermission <-
             query
               (fun d =>
                  Repository.findOne
                    (fun gp => (GroupPermission.organizationId gp =? organizationId)
                               && (GroupPermission.group gp =? group))
                    (group_permissions d)) ;;
           match orgGroupPermission with
           | Some orgGroupPermission =>
               UsersService.insert_user_group_permission
                 (GroupPermission.id orgGroupPermission) (User.id user)
           | None => throw (noSuchGroup group)
           end)
        (mkWorld (set_users (db w) (Repository.save user (users (db w))))
           (outbox w) (S (S (entropy w))) (env w))
    with
    | (Ok _, w') => (Ok user, w')
    | (Throw e, w') => (Throw e, set_db w' (db w))
    end.
Proof.
  simpl. unfold UsersService.create, transaction, UsersService.insert_user, generated_id,
    uuid_v4, noSuchGroup. run.
  destruct (for_of groups _ _) as [[[]|e] w']; reflexivity.
Qed.

(** X9: [create] puts nothing into the store when it fails on its
    groups: called without groups it throws a TypeError, and called
    with a group the organization has no permission row for it throws
    BadRequest naming a group of the list that the organization has no
    permission row for; either way the user row inserted
    before the loop is rolled back with the membership rows, and no
    mail is sent. *)
Theorem create_rolls_back (w : World) :
  (exists w',
      UsersService.create userParams organizationId None w
      = (Throw (TypeError "groups is not iterable"), w')
      /\ db w' = db w /\ outbox w' = outbox w)
  /\ forall groups,
       (exists group,
           In group groups
           /\ Repository.findOne
                (fun gp => (GroupPermission.organizationId gp =? organizationId)
                           && (GroupPermission.group gp =? group))
                (group_permissions (db w)) = None) ->
       exists group w',
         In group groups
         /\ Repository.findOne
              (fun gp => (GroupPermission.organizationId gp =? organizationId)
                         && (GroupPermission.group gp =? group))
              (group_permissions (db w)) = None
         /\ UsersService.create userParams organizationId (Some groups) w
            = (Throw (noSuchGroup group), w')
         /\ db w' = db w /\ outbox w' = outbox w.
Proof.
  split.
  - unfold UsersService.create, transaction, UsersService.insert_user, generated_id, uuid_v4.
    run. eexists. split; [reflexivity|]. split; reflexivity.
  - intros groups Hmissing. rewrite create_unfold.
    destruct (memberships_loop_fails
                (fun d group =>
                   Repository.findOne
                     (fun gp => (GroupPermission.organizationId gp =? organizationId)
                                && (GroupPermission.group gp =? group))
                     (group_permissions d))
                (v4 (S (entropy w)))
                (fun d1 d2 group Heq => f_equal _ Heq) groups
                (mkWorld
                   (set_users (db w)
                      (Repository.save
                         (User.mk (v4 (S (entropy w))) (UsersService.up_email userParams)
                            (UsersService.up_firstName userParams)
                            (UsersService.up_lastName userParams)
                            (v4 (entropy w)) None None organizationId None None)
                         (users (db w))))
                   (outbox w) (S (S (entropy w))) (env w)) Hmissing)
      as (group & w' & Hin & Hnone & Hloop & _ & Hout).
    simpl in Hloop, Hnone. exists group. eexists. split; [exact Hin|].
    split; [exact Hnone|].
    simpl. rewrite Hloop. split; [reflexivity|]. simpl. split; [reflexivity|exact Hout].
Qed.

(** What [create] returns and writes when its groups exist. *)
Lemma create_succeeds (groups : list string) (w : World) :
  freshIdentifiers w ->
  organizationId <> "" ->
  (forall group,
      In group groups ->
      Repository.findOne
        (fun gp => (GroupPermission.organizationId gp =? organizationId)
                   && (GroupPermission.group gp =? group))
        (group_permissions (db w)) <> None) ->
  exists w' rows,
    let user :=
      User.mk (v4 (S (entropy w))) (UsersService.up_email userParams)
        (UsersService.up_firstName userParams) (UsersService.up_lastName userParams)
        (v4 (entropy w)) None None organizationId None None in
    UsersService.create userParams organizationId (Some groups) w = (Ok user, w')
    /\ db w'
       = set_user_group_permissions (set_users (db w) (users (db w) ++ [user])%list)
           (user_group_permissions (db w) ++ rows)%list
    /\ outbox w' = outbox w
    /\ length rows = length groups
    /\ forall group,
         In group groups ->
         UsersService.hasGroup (db w') user group (Some organizationId) = true.
Proof.
  intros Hfresh Horg Hall. rewrite create_unfold. simpl.
  set (user := User.mk (v4 (S (entropy w))) (UsersService.up_email userParams)
                 (UsersService.up_firstName userParams)
                 (UsersService.up_lastName userParams)
                 (v4 (entropy w)) None None organizationId None None).
  destruct Hfresh as (Hinj & Husers & Hrows).
  assert (Hsave : Repository.save user (users (db w)) = (users (db w) ++ [user])%list).
  { apply save_new_key. intros r Hr. simpl. apply Husers; [lia|assumption]. }
  rewrite Hsave.
  set (w3 := mkWorld (set_users (db w) (users (db w) ++ [user])%list)
               (outbox w) (S (S (entropy w))) (env w)).
  assert (Hfresh3 : freshIdentifiers w3).
  { split; [exact Hinj|]. split.
    - intros n u Hn Hu. simpl in Hn, Hu. apply in_app_or in Hu.
      destruct Hu as [Hu|[<-|[]]].
      + apply Husers; [lia|assumption].
      + simpl. intros Heq. apply Hinj in Heq. lia.
    - intros n r Hn Hr. simpl in Hn, Hr. apply Hrows; [lia|assumption]. }
  destruct (memberships_loop_succeeds
              (fun d group =>
                 Repository.findOne
                   (fun gp => (GroupPermission.organizationId gp =? organizationId)
                              && (GroupPermission.group gp =? group))
                   (group_permissions d))
              (User.id user)
              (fun d1 d2 group Heq => f_equal _ Heq) groups Hfresh3 Hall)
    as (w' & rows & Hloop & _ & Hdb & Hout & _ & _ & Hlen & Hheld).
  simpl in Hloop. unfold user in Hloop. simpl in Hloop. rewrite Hloop.
  exists w', rows. split; [reflexivity|]. split; [exact Hdb|]. split; [exact Hout|].
  split; [exact Hlen|].
  intros group Hg.
  destruct (Hheld group Hg) as (gp & ugp & Hfind & Hin & Hu & Hid).
  simpl in Hfind. unfold Repository.findOne in Hfind. apply find_some in Hfind.
  destruct Hfind as [Hgp Hc]. apply andb_prop in Hc. destruct Hc as [Ho Hgr].
  apply String.eqb_eq in Ho, Hgr.
  apply (hasGroup_of_membership (db w') user gp ugp Horg); auto.
  - rewrite Hdb. exact Hgp.
  - rewrite Hdb. simpl. apply in_or_app. now right.
Qed.


End Create.

Section FindOrCreate.
Context `{Uuid}.
Variables (userParams : UsersService.UserParams) (organizationId : string) (w : World).

(** X11: [findOrCreateByEmail] returns the user who has the email,
    untouched and flagged as not new, writing nothing. When nobody has
    the email, the identifiers are new to the store and the
    organization has an 'all_users' group, it creates the user, flags
    it as new, and a lookup by that email then finds that user. *)
Theorem findOrCreateByEmail_finds_or_creates :
  (forall user,
      UsersService.findByEmail (db w) (UsersService.up_email userParams) None = Some user ->
      UsersService.findOrCreateByEmail userParams organizationId w = (Ok (user, false), w))
  /\ (UsersService.findByEmail (db w) (UsersService.up_email userParams) None = None ->
      freshIdentifiers w ->
      organizationId <> "" ->
      Repository.findOne
        (fun gp => (GroupPermission.organizationId gp =? organizationId)
                   && (GroupPermission.group gp =? "all_users"))
        (group_permissions (db w)) <> None ->
      exists user w',
        UsersService.findOrCreateByEmail userParams organizationId w = (Ok (user, true), w')
        /\ User.email user = UsersService.up_email userParams
        /\ User.defaultOrganizationId user = organizationId
        /\ UsersService.findByEmail (db w') (UsersService.up_email userParams) None
           = Some user
        /\ UsersService.hasGroup (db w') user "all_users" (Some organizationId) = true).
Proof.
  split.
  - intros user Hfind. unfold UsersService.findOrCreateByEmail. run. now rewrite Hfind.
  - intros Hnone Hfresh Horg Hgroup.
    destruct (@create_succeeds _ userParams organizationId
                ["all_users"] w Hfresh Horg)
      as (w' & rows & Hcreate & Hdb & _ & _ & Hheld).
    { intros group [<-|[]]. exact Hgroup. }
    simpl in Hcreate, Hheld.
    unfold UsersService.findOrCreateByEmail. run. rewrite Hnone, Hcreate.
    eexists. exists w'. split; [reflexivity|]. simpl.
    split; [reflexivity|]. split; [reflexivity|]. split.
    + unfold UsersService.findByEmail, Repository.findOne in *. simpl in *.
      rewrite Hdb. simpl. rewrite (find_app_none _ _ _ Hnone). simpl.
      now rewrite String.eqb_refl.
    + apply Hheld. now left.
Qed.

End FindOrCreate.

(** ** Changing the groups of a user *)

Section ChangingGroups.
Context `{Uuid}.
Variables (w : World) (manager : UsersService.EntityManager) (user : User.t) (org : string).
Hypothesis user_organization : User.organizationId user = Some org.

(** [addUserGroupPermissions] is the membership loop over the groups
    of the user's organization, read once before the loop. *)
Lemma addUserGroupPermissions_unfold (addGroups : list string) :
  UsersService.addUserGroupPermissions manager (Some user) (Some addGroups) w
  = for_of addGroups
      (fun group =>
         orgGroupPermission <-
           query
             (fun _ =>
                find (fun permission => GroupPermission.group permission =? group)
                  (UsersService.groupPermissionsForOrganization (db w)
                     (User.organizationId user))) ;;
         match orgGroupPermission with
         | Some orgGroupPermission =>
             UsersService.insert_user_group_permission
               (GroupPermission.id orgGroupPermission) (User.id user)
         | None => throw (noSuchGroup group)
         end) w.
Proof. reflexivity. Qed.

Lemma find_group_of_organization (group : string) (gp : GroupPermission.t) :
  find (fun permission => GroupPermission.group permission =? group)
    (UsersService.groupPermissionsForOrganization (db w) (User.organizationId user))
  = Some gp ->
  In gp (group_permissions (db w))
  /\ GroupPermission.organizationId gp = org
  /\ GroupPermission.group gp = group.
Proof.
  intros Hfind. apply find_some in Hfind. destruct Hfind as [Hin Hgr].
  apply String.eqb_eq in Hgr.
  unfold UsersService.groupPermissionsForOrganization in Hin. apply filter_In in Hin.
  destruct Hin as [Hin Horg]. rewrite user_organization in Horg. simpl in Horg.
  apply String.eqb_eq in Horg. auto.
Qed.

(** X12: with identifiers new to the store, adding groups that the
    user's organization has appends one membership row per name of the
    list, writes nothing else, and the user then holds each of the
    groups; a list with a name the organization has no group for throws
    BadRequest naming a name of the list that the organization has no
    group for. *)
Theorem addUserGroupPermissions_adds (addGroups : list string) :
  (freshIdentifiers w ->
   (forall group,
       In group addGroups ->
       exists gp, In gp (group_permissions (db w))
                  /\ GroupPermission.organizationId gp = org
                  /\ GroupPermission.group gp = group) ->
   exists w' rows,
     UsersService.addUserGroupPermissions manager (Some user) (Some addGroups) w = (Ok tt, w')
     /\ db w' = set_user_group_permissions (db w) (user_group_permissions (db w) ++ rows)%list
     /\ outbox w' = outbox w
     /\ length rows = length addGroups
     /\ forall group,
          In group addGroups -> UsersService.hasGroup (db w') user group None = true)
  /\ ((exists group,
          In group addGroups
          /\ forall gp, In gp (group_permissions (db w)) ->
                        GroupPermission.organizationId gp = org ->
                        GroupPermission.group gp <> group) ->
      exists group w',
        In group addGroups
        /\ (forall gp, In gp (group_permissions (db w)) ->
                       GroupPermission.organizationId gp = org ->
                       GroupPermission.group gp <> group)
        /\ UsersService.addUserGroupPermissions manager (Some user) (Some addGroups) w
           = (Throw (noSuchGroup group), w')
        /\ users (db w') = users (db w)
        /\ outbox w' = outbox w).
Proof.
  split.
  - intros Hfresh Hall. rewrite addUserGroupPermissions_unfold.
    destruct (memberships_loop_succeeds
                (fun _ group =>
                   find (fun permission => GroupPermission.group permission =? group)
                     (UsersService.groupPermissionsForOrganization (db w)
                        (User.organizationId user)))
                (User.id user) (fun _ _ _ _ => eq_refl) addGroups Hfresh)
      as (w' & rows & Hloop & _ & Hdb & Hout & _ & _ & Hlen & Hheld).
    { intros group Hg. destruct (Hall group Hg) as (gp & Hgp & Horg & Hgr).
      destruct (find_In_true
                  (fun permission => GroupPermission.group permission =? group)
                  (UsersService.groupPermissionsForOrganization (db w)
                     (User.organizationId user)) gp) as [y Hy].
      - unfold UsersService.groupPermissionsForOrganization. apply filter_In.
        split; [assumption|]. rewrite user_organization. simpl. rewrite Horg.
        apply String.eqb_refl.
      - rewrite Hgr. apply String.eqb_refl.
      - simpl. rewrite Hy. discriminate. }
    exists w', rows. split; [exact Hloop|]. split; [exact Hdb|]. split; [exact Hout|].
    split; [exact Hlen|].
    intros group Hg. destruct (Hheld group Hg) as (gp & ugp & Hfind & Hin & Hu & Hid).
    apply find_group_of_organization in Hfind. destruct Hfind as (Hgp & Horg & Hgr).
    apply hasGroup_iff. exists gp, ugp. rewrite Hdb. simpl.
    split; [assumption|]. split; [apply in_or_app; now right|].
    rewrite user_organization, Horg. auto.
  - intros (group & Hg & Hnone). rewrite addUserGroupPermissions_unfold.
    destruct (memberships_loop_fails
                (fun _ group =>
                   find (fun permission => GroupPermission.group permission =? group)
                     (UsersService.groupPermissionsForOrganization (db w)
                        (User.organizationId user)))
                (User.id user) (fun _ _ _ _ => eq_refl) addGroups w)
      as (g & w' & Hin & Hmissing & Hloop & Husers & Hout).
    { exists group. split; [assumption|].
      destruct (find _ _) as [gp|] eqn:Hfind; [|reflexivity].
      apply find_group_of_organization in Hfind. destruct Hfind as (Hgp & Horg & Hgr).
      exfalso. now apply (Hnone gp). }
    exists g, w'. split; [exact Hin|]. split; [|auto].
    intros gp Hgp Horg Hgr. simpl in Hmissing.
    pose proof (find_none _ _ Hmissing gp) as Hf. simpl in Hf.
    rewrite Hgr, String.eqb_refl in Hf.
    assert (Hfalse : true = false); [|discriminate].
    apply Hf. unfold UsersService.groupPermissionsForOrganization. apply filter_In.
    split; [assumption|]. rewrite user_organization. simpl. rewrite Horg.
    apply String.eqb_refl.
Qed.

(** What a successful removal has written. *)
Lemma removeUserGroupPermissionsIfExists_returns (removeGroups : list string) (w' : World) :
  UsersService.removeUserGroupPermissionsIfExists manager (Some user) (Some removeGroups) w
  = (Ok tt, w') ->
  includes removeGroups "all_users" = false
  /\ w'
     = set_db w
         (set_user_group_permissions (db w)
            (Repository.delete
               (fun ugp =>
                  includes
                    (map GroupPermission.id
                       (filter
                          (fun gp =>
                             includes removeGroups (GroupPermission.group gp)
                             && eq_where (GroupPermission.organizationId gp)
                                  (User.organizationId user))
                          (group_permissions (db w))))
                    (UserGroupPermission.groupPermissionId ugp)
                  && (UserGroupPermission.userId ugp =? User.id user))
               (user_group_permissions (db w)))).
Proof.
  unfold UsersService.removeUserGroupPermissionsIfExists. run.
  destruct (UsersService.throwErrorIfRemovingLastActiveAdmin _ _ _); [|discriminate].
  destruct (includes removeGroups "all_users"); [discriminate|].
  intros [= <-]. auto.
Qed.

(** X13: after a removal that returns, the user holds none of the
    groups named, 'all_users' was not among the names, and only
    membership rows of that user are gone: the rows of other users, the
    users and the groups are as before. *)
Theorem removeUserGroupPermissionsIfExists_removes
    (removeGroups : list string) (w' : World) :
  UsersService.removeUserGroupPermissionsIfExists manager (Some user) (Some removeGroups) w
  = (Ok tt, w') ->
  ~ In "all_users" removeGroups
  /\ (forall group,
         In group removeGroups -> UsersService.hasGroup (db w') user group None = false)
  /\ (forall ugp,
         UserGroupPermission.userId ugp <> User.id user ->
         In ugp (user_group_permissions (db w')) <-> In ugp (user_group_permissions (db w)))
  /\ users (db w') = users (db w)
  /\ group_permissions (db w') = group_permissions (db w).
Proof.
  intros Hrun. apply removeUserGroupPermissionsIfExists_returns in Hrun.
  destruct Hrun as [Hall ->]. simpl. split; [|split; [|split; [|split]]]; try reflexivity.
  - intros Hin. apply includes_true in Hin. congruence.
  - intros group Hg. apply Bool.not_true_iff_false. intros Hheld.
    apply hasGroup_iff in Hheld.
    destruct Hheld as (gp & ugp & Hgp & Hugp & Horg & Hgr & Hid & Hu).
    simpl in Hgp, Hugp. unfold Repository.delete in Hugp. apply filter_In in Hugp.
    destruct Hugp as [_ Hkept]. apply negb_true_iff in Hkept.
    rewrite Hu, String.eqb_refl, andb_true_r in Hkept.
    assert (Hinc : includes
                     (map GroupPermission.id
                        (filter
                           (fun gp =>
                              includes removeGroups (GroupPermission.group gp)
                              && eq_where (GroupPermission.organizationId gp)
                                   (User.organizationId user))
                           (group_permissions (db w))))
                     (UserGroupPermission.groupPermissionId ugp) = true).
    { apply includes_true. rewrite Hid. apply in_map. apply filter_In.
      split; [assumption|]. rewrite Horg. simpl. rewrite String.eqb_refl, andb_true_r.
      apply includes_true. now rewrite Hgr. }
    congruence.
  - intros ugp Hne. unfold Repository.delete. rewrite filter_In.
    apply String.eqb_neq in Hne. rewrite Hne, andb_false_r. simpl. tauto.
Qed.

End ChangingGroups.

(** ** Updating a user *)

Lemma update_no_such_key {A} `{Entity A} (id : string) (patch : A -> A) (rows : list A) :
  (forall r, In r rows -> pk r <> id) -> Repository.update id patch rows = rows.
Proof.
  intros Hnone. unfold Repository.update.
  rewrite <- (map_id rows) at 2. apply map_ext_in. intros r Hr.
  apply Hnone in Hr. apply String.eqb_neq in Hr. now rewrite Hr.
Qed.

Lemma set_users_same (w : World) : set_db w (set_users (db w) (users (db w))) = w.
Proof. destruct w as [[] ? ? ?]. reflexivity. Qed.

Section Update.
Context `{Bcrypt} `{Uuid}.
Variables (w : World) (userId : string) (manager : option UsersService.EntityManager).

(** X14: [update] of some column for an id no user has writes
    nothing, inside a transaction of its own or not: without group
    changes it returns [undefined], and asked to add groups it throws
    the TypeError of reading the organization of the user it did not
    find. *)
Theorem update_unknown_user (params : UsersService.UpdateParams) :
  UsersService.forgotPasswordToken params <> None
  \/ UsersService.firstName params <> None
  \/ UsersService.lastName params <> None
  \/ truthy_opt (UsersService.password params) = true ->
  UsersService.findOne (db w) userId = None ->
  UsersService.removeGroups params = None ->
  (UsersService.addGroups params = None ->
   UsersService.update userId params manager w = (Ok None, w))
  /\ (forall addGroups,
         UsersService.addGroups params = Some addGroups ->
         UsersService.update userId params manager w
         = (Throw (TypeError "Cannot read properties of undefined (reading 'organizationId')"),
            w)).
Proof.
  intros _ Hnone Hrm.
  assert (Hrows : forall patch, Repository.update userId patch (users (db w)) = users (db w)).
  { intros patch. apply update_no_such_key. intros r Hr Heq.
    unfold UsersService.findOne, Repository.findOne in Hnone.
    pose proof (find_none _ _ Hnone r Hr) as Hf. simpl in Hf, Heq.
    rewrite Heq, String.eqb_refl in Hf. discriminate. }
  unfold UsersService.findOne, Repository.findOne in Hnone.
  split.
  - intros Hadd. destruct manager;
      unfold UsersService.update, transaction, bind, execute, query;
      cbn -[Repository.update]; rewrite Hrows, Hrm, Hadd, set_users_same;
      cbn; rewrite Hnone; reflexivity.
  - intros addGroups Hadd. destruct manager;
      unfold UsersService.update, transaction, bind, execute, query;
      cbn -[Repository.update]; rewrite Hrows, Hrm, Hadd, set_users_same;
      cbn; rewrite Hnone; [reflexivity|].
    cbn. destruct w as [[] ? ? ?]; reflexivity.
Qed.

End Update.

(** ** From a forgotten password to a new one *)

Lemma find_update_first {A} `{Entity A} (p : A -> bool) (id : string) (patch : A -> A)
    (rows : list A) (x : A) :
  In x rows ->
  pk x = id ->
  (forall r, In r rows -> pk r = id -> p (patch r) = true) ->
  (forall r, In r rows -> pk r <> id -> p r = false) ->
  exists r, In r rows /\ pk r = id /\ find p (Repository.update id patch rows) = Some (patch r).
Proof.
  unfold Repository.update.
  induction rows as [|a rows IH]; simpl; intros Hin Hpk Hyes Hno; [destruct Hin|].
  destruct (String.eqb_spec (pk a) id) as [Ha|Ha].
  - exists a. rewrite (Hyes a (or_introl eq_refl) Ha). auto.
  - rewrite (Hno a (or_introl eq_refl) Ha).
    destruct Hin as [->|Hin]; [contradiction|].
    destruct (IH Hin Hpk) as (r & Hr & Hrid & Hfind); auto.
    exists r. auto.
Qed.

Section ForgotPassword.
Context `{Bcrypt} `{Uuid} `{EmailService}.
Variables (w : World) (email : string) (user : User.t).
Hypothesis user_found : UsersService.findByEmail (db w) email None = Some user.

(** [forgotPassword] for a known email: the token is drawn, stored and
    then mailed. *)
Lemma forgotPassword_found :
  AuthService.forgotPassword email w
  = sendPasswordResetEmail email (v4 (entropy w))
      (mkWorld
         (set_users (db w)
            (Repository.update (User.id user)
               (UsersService.patch_user
                  (UsersService.mkUpdateableParams (Some (Some (v4 (entropy w)))) None None
                     None))
               (users (db w))))
         (outbox w) (S (entropy w)) (env w)).
Proof.
  unfold AuthService.forgotPassword, UsersService.update, transaction, uuid_v4,
    UsersService.cleanObject. run.
  rewrite user_found. reflexivity.
Qed.

(** X15: the token [forgotPassword] mails for a known email is the one
    it has just stored on that user's row, and, when no user carried
    that token before, [resetPassword] with it finds that user, returns,
    clears the token and stores the hash of a non-empty new password. *)
Theorem forgotPassword_token_resets_password (password : string) :
  (forall u, In u (users (db w)) -> User.forgotPasswordToken u <> Some (v4 (entropy w))) ->
  exists w1,
    AuthService.forgotPassword email w = sendPasswordResetEmail email (v4 (entropy w)) w1
    /\ outbox w1 = outbox w
    /\ (exists u1,
           UsersService.findByPasswordResetToken (db w1) (v4 (entropy w)) = Some u1
           /\ User.id u1 = User.id user)
    /\ exists w2,
         AuthService.resetPassword (v4 (entropy w)) password w1 = (Ok tt, w2)
         /\ forall u2,
              In u2 (users (db w2)) ->
              User.id u2 = User.id user ->
              User.forgotPasswordToken u2 = None
              /\ (password <> "" -> User.password u2 = hashSync password 10).
Proof.
  intros Hnew. rewrite forgotPassword_found. eexists. split; [reflexivity|].
  split; [reflexivity|].
  pose proof user_found as Hin. unfold UsersService.findByEmail, Repository.findOne in Hin.
  simpl in Hin. apply find_some in Hin. destruct Hin as [Hin _].
  destruct (@find_update_first User.t User_Entity
              (fun u => is_value (User.forgotPasswordToken u) (v4 (entropy w)))
              (User.id user)
              (UsersService.patch_user
                 (UsersService.mkUpdateableParams (Some (Some (v4 (entropy w)))) None None
                    None))
              (users (db w)) user Hin eq_refl)
    as (r & Hr & Hrid & Hfind).
  { intros r _ _. simpl. apply String.eqb_refl. }
  { intros r Hr _. specialize (Hnew r Hr).
    destruct (User.forgotPasswordToken r) as [t|]; [simpl|reflexivity].
    apply String.eqb_neq. congruence. }
  assert (Hfound :
            UsersService.findByPasswordResetToken
              (set_users (db w)
                 (Repository.update (User.id user)
                    (UsersService.patch_user
                       (UsersService.mkUpdateableParams (Some (Some (v4 (entropy w)))) None
                          None None))
                    (users (db w))))
              (v4 (entropy w))
            = Some (UsersService.patch_user
                      (UsersService.mkUpdateableParams (Some (Some (v4 (entropy w)))) None
                         None None) r))
    by exact Hfind.
  split.
  - eexists. split; [exact Hfound|]. exact Hrid.
  - eexists. split; [eapply resetPassword_found; exact Hfound|].
    intros u2 Hu2 Hid. simpl in Hu2. apply In_update in Hu2.
    destruct Hu2 as (x & Hx & ->). simpl in *.
    rewrite Hrid in *.
    destruct (String.eqb_spec (User.id x) (User.id user)) as [Heq|Hne]; [|contradiction].
    simpl. split; [reflexivity|]. intros Hpw. unfold truthy.
    apply String.eqb_neq in Hpw. now rewrite Hpw.
Qed.

End ForgotPassword.

(** ** An invitation is used once *)

Lemma In_save_cases {A} `{Entity A} (x y : A) (rows : list A) :
  In y (Repository.save x rows) -> y = x \/ (In y rows /\ pk y <> pk x).
Proof.
  intros Hin. destruct (String.eqb_spec (pk y) (pk x)) as [Heq|Hne].
  - left. now apply (In_save_same_key _ _ _ Hin).
  - right. split; [|assumption]. unfold Repository.save in Hin.
    destruct (existsb _ rows).
    + apply in_map_iff in Hin. destruct Hin as (r & Hy & Hr).
      destruct (pk r =? pk x); [subst y; contradiction|now subst].
    + apply in_app_or in Hin. destruct Hin as [Hin|[Heq|[]]]; [assumption|].
      subst y. contradiction.
Qed.

Section InvitationOnce.
Variables (w w' : World) (params : UsersService.SetupParams).
Hypothesis setup_returns :
  UsersService.setupAccountFromInvitationToken params w = (Ok tt, w').

(** The rows a returning call has saved. *)
Lemma setupAccount_saves :
  exists user organizationUser,
    UsersService.resolveInvitation params w = (Ok (user, organizationUser), w)
    /\ users (db w') = Repository.save (UsersService.assign_user user params) (users (db w))
    /\ organization_users (db w')
       = Repository.save (UsersService.assign_organizationUser organizationUser)
           (organization_users (db w)).
Proof.
  pose proof setup_returns as Hrun.
  unfold UsersService.setupAccountFromInvitationToken in Hrun. revert Hrun. run.
  destruct (UsersService.resolveInvitation params w) as [[[user ou]|e] w1] eqn:Hres;
    [|discriminate].
  pose proof (resolveInvitation_reads _ _ Hres) as ->. simpl.
  intros Hrun. exists user, ou. split; [reflexivity|].
  destruct (UsersService.new_signup params && truthy_opt (UsersService.organization params)).
  - destruct (UsersService.organization params) as [name|].
    + unfold UsersService.organizationsRepository_update in Hrun.
      destruct (User.organizationId user) as [id|]; [|discriminate].
      destruct (truthy id); [|discriminate]. injection Hrun as <-. split; reflexivity.
    + injection Hrun as <-. split; reflexivity.
  - injection Hrun as <-. split; reflexivity.
Qed.

(** X16: an invitation token works once. After a call that returned,
    a second call with the same token on the same path throws
    BadRequest and writes nothing, provided the rows that carried the
    token (user rows for a new signup, membership rows otherwise) all
    had the same key. *)
Theorem invitation_token_is_single_use (params' : UsersService.SetupParams) :
  UsersService.token params' = UsersService.token params ->
  UsersService.new_signup params' = UsersService.new_signup params ->
  (if UsersService.new_signup params
   then forall u1 u2,
          In u1 (users (db w)) -> In u2 (users (db w)) ->
          User.invitationToken u1 = Some (UsersService.token params) ->
          User.invitationToken u2 = Some (UsersService.token params) ->
          User.id u1 = User.id u2
   else forall m1 m2,
          In m1 (organization_users (db w)) -> In m2 (organization_users (db w)) ->
          OrganizationUser.invitationToken m1 = Some (UsersService.token params) ->
          OrganizationUser.invitationToken m2 = Some (UsersService.token params) ->
          OrganizationUser.id m1 = OrganizationUser.id m2) ->
  UsersService.setupAccountFromInvitationToken params' w'
  = (Throw (BadRequestException "Invalid invitation link"), w').
Proof.
  intros Htoken Hpath Hsame.
  destruct setupAccount_saves as (user & ou & Hres & Husers & Hous).
  apply setupAccount_unresolved. unfold UsersService.resolveInvitation. run.
  rewrite Hpath, Htoken.
  unfold UsersService.resolveInvitation in Hres. revert Hres. run.
  destruct (UsersService.new_signup params).
  - destruct (Repository.findOne _ (users (db w))) as [u|] eqn:Hfind; [|discriminate].
    simpl. destruct (find _ (UsersService.organizationUsers (db w) u)); [|discriminate].
    intros [= -> ->].
    unfold Repository.findOne in *. apply find_some in Hfind. destruct Hfind as [Hin Htok].
    rewrite find_none_of_all_false; [reflexivity|].
    intros y Hy. rewrite Husers in Hy. apply In_save_cases in Hy.
    destruct Hy as [->|[Hy Hne]]; [reflexivity|].
    destruct (User.invitationToken y) as [t|] eqn:Ht; [simpl|reflexivity].
    apply String.eqb_neq. intros ->. apply Hne. simpl.
    apply (Hsame y user Hy Hin Ht).
    destruct (User.invitationToken user) as [t|]; [|discriminate]. simpl in Htok.
    apply String.eqb_eq in Htok. now subst.
  - destruct (Repository.findOne _ (organization_users (db w))) as [m|] eqn:Hfind;
      [|discriminate].
    simpl. destruct (UsersService.findOne (db w) (OrganizationUser.userId m));
      [|discriminate].
    intros [= -> ->].
    unfold Repository.findOne in *. apply find_some in Hfind. destruct Hfind as [Hin Htok].
    rewrite find_none_of_all_false; [reflexivity|].
    intros y Hy. rewrite Hous in Hy. apply In_save_cases in Hy.
    destruct Hy as [->|[Hy Hne]]; [reflexivity|].
    destruct (OrganizationUser.invitationToken y) as [t|] eqn:Ht; [simpl|reflexivity].
    apply String.eqb_neq. intros ->. apply Hne. simpl.
    apply (Hsame y ou Hy Hin Ht).
    destruct (OrganizationUser.invitationToken ou) as [t|]; [|discriminate]. simpl in Htok.
    apply String.eqb_eq in Htok. now subst.
Qed.

End InvitationOnce.

(** ** The authentication form *)

Section AuthenticationForm.
Variable props : Authentication.Props.

(** X17: every control of the form displays the prop it edits: the key
    a control reports its changes under names the prop whose value the
    control shows. *)
Theorem form_controls_show_what_they_edit
    (e : Authentication.Element) (key : string) (value : Authentication.Value) :
  Authentication.Authentication props = Some e ->
  In (key, value) (Authentication.controls e) ->
  Authentication.prop props key = Some value.
Proof.
  unfold Authentication.Authentication.
  destruct (is_value (Authentication.auth_type props) "oauth2");
    [|destruct (is_value (Authentication.auth_type props) "basic");
      [|destruct (is_value (Authentication.auth_type props) "bearer"); [|discriminate]]];
    intros [= <-]; simpl;
    try destruct (is_value (Authentication.add_token_to props) "header");
    try destruct (is_value (Authentication.grant_type props) "authorization_code");
    simpl; intros Hin;
    repeat (destruct Hin as [[= <- <-]|Hin]; [reflexivity|]); destruct Hin.
Qed.

(** X18: the form is rendered for the authentication types 'oauth2',
    'basic' and 'bearer' only. 'basic' edits the username and the
    password, 'bearer' the access token; 'oauth2' edits the header
    prefix only while the token goes to the header, and the
    authorization URL, parameters and client authentication only for
    the authorization-code grant. No form edits the authentication
    type, and every input is a plain text input. *)
Theorem form_by_auth_type :
  (Authentication.Authentication props = None
   <-> ~ exists t, Authentication.auth_type props = Some t
                   /\ In t ["oauth2"; "basic"; "bearer"])
  /\ forall e,
       Authentication.Authentication props = Some e ->
       map fst (Authentication.controls e)
       = (if is_value (Authentication.auth_type props) "oauth2" then
            (["grant_type"; "add_token_to"]
             ++ (if is_value (Authentication.add_token_to props) "header"
                 then ["header_prefix"] else [])
             ++ ["access_token_url"; "client_id"; "client_secret"; "scopes";
                 "custom_query_params"]
             ++ (if is_value (Authentication.grant_type props) "authorization_code"
                 then ["auth_url"; "custom_auth_params"; "client_auth"] else []))%list
          else if is_value (Authentication.auth_type props) "basic" then
            ["username"; "password"]
          else ["access_token"])
       /\ Forall (fun type => type = "text") (Authentication.input_types e).
Proof.
  unfold Authentication.Authentication. split.
  - split.
    + intros Hnone (t & Ht & Hin). rewrite Ht in Hnone. simpl in Hnone, Hin.
      destruct Hin as [<-|[<-|[<-|[]]]]; discriminate.
    + intros Hnot.
      destruct (Authentication.auth_type props) as [t|]; [simpl|reflexivity].
      destruct (String.eqb_spec t "oauth2") as [->|_];
        [exfalso; apply Hnot; exists "oauth2"; simpl; auto|].
      destruct (String.eqb_spec t "basic") as [->|_];
        [exfalso; apply Hnot; exists "basic"; simpl; auto|].
      destruct (String.eqb_spec t "bearer") as [->|_];
        [exfalso; apply Hnot; exists "bearer"; simpl; auto|reflexivity].
  - intros e.
    destruct (is_value (Authentication.auth_type props) "oauth2");
      [|destruct (is_value (Authentication.auth_type props) "basic");
        [|destruct (is_value (Authentication.auth_type props) "bearer"); [|discriminate]]];
      intros [= <-]; simpl;
      try destruct (is_value (Authentication.add_token_to props) "header");
      try destruct (is_value (Authentication.grant_type props) "authorization_code");
      simpl; split; try reflexivity; repeat constructor.
Qed.

End AuthenticationForm.

(** ** The properties on the sample store *)

Lemma sample_v4_injective (n m : nat) :
  @v4 Sample.uuid n = @v4 Sample.uuid m -> n = m.
Proof.
  simpl. intros Heq. injection Heq as Heq.
  apply (f_equal NilEmpty.uint_of_string) in Heq. rewrite !NilEmpty.usu in Heq.
  injection Heq as Heq. apply (f_equal Nat.of_uint) in Heq.
  now rewrite !DecimalNat.Unsigned.of_to in Heq.
Qed.

Lemma sample_world_fresh : @freshIdentifiers Sample.uuid Sample.world.
Proof.
  split; [exact sample_v4_injective|]. split.
  - intros n u _ Hin. simpl in Hin.
    repeat (destruct Hin as [<-|Hin]; [simpl; discriminate|]). destruct Hin.
  - intros n r _ Hin. simpl in Hin.
    repeat (destruct Hin as [<-|Hin]; [simpl; discriminate|]). destruct Hin.
Qed.

Section GrantsOnSample.

(** X2, on the shared store: grace belongs to no group. *)
Lemma userCan_without_groups_witness :
  UsersService.userCan Sample.shared_store Sample.grace "create" "App" None = false
  /\ UsersService.userCan Sample.shared_store Sample.grace "create" "Folder" None = false
  /\ UsersService.userCan Sample.shared_store Sample.grace "read" "App" (Some "a1") = false
  /\ UsersService.userCan Sample.shared_store Sample.grace "read" "App" None = false.
Proof.
  destruct (@userCan_without_groups Sample.shared_store Sample.grace None eq_refl)
    as (Happ & Hfolder & Hundefined).
  destruct (@userCan_without_groups Sample.shared_store Sample.grace (Some "a1") eq_refl)
    as (_ & _ & Hread).
  split; [exact Happ|]. split; [exact Hfolder|]. split.
  - rewrite (Hread "read"); [reflexivity|]. simpl. auto.
  - rewrite (Hundefined "read"); [reflexivity|]. simpl. auto.
Defined.

(** X3, on the shared store: bob reads the app through 'all_users';
    updating it is not shared. *)
Lemma userCan_read_update_iff_witness :
  UsersService.userCan Sample.shared_store Sample.bob "read" "App" (Some "a1") = true
  /\ UsersService.userCan Sample.shared_store Sample.bob "update" "App" (Some "a1") = false.
Proof.
  split.
  - apply (@userCan_read_update_iff Sample.shared_store Sample.bob "read" "a1").
    + simpl. auto.
    + discriminate.
    + right.
      exists (AppGroupPermission.mk "p1" "a1" "g2" true false false),
        (UserGroupPermission.mk "x4" "u2" "g2"), Sample.all_users_group.
      simpl. intuition.
  - reflexivity.
Defined.

(** X4, on the sample store: alice creates apps as a member of 'admin';
    carol, a member of 'all_users' only, does not. *)
Lemma userCan_create_iff_witness :
  UsersService.userCan Sample.store Sample.alice "create" "App" None = true
  /\ UsersService.userCan Sample.store Sample.carol "create" "App" None = false.
Proof.
  split.
  - apply (@userCan_create_iff Sample.store Sample.alice "App" None).
    + simpl. auto.
    + simpl. repeat constructor; simpl; intuition discriminate.
    + exists Sample.admin_group, (UserGroupPermission.mk "x1" "u1" "g1").
      simpl. intuition.
  - reflexivity.
Defined.

(** X5, on the shared store: carol, who owns the app, resolves a
    thread of it; bob, who may read the app but not update it, may not;
    for both the decision is the one for updating the app. *)
Lemma userCan_owner_on_threads_and_comments_witness :
  UsersService.userCan Sample.shared_store Sample.carol "resolve" "Thread" (Some "a1") = true
  /\ UsersService.userCan Sample.shared_store Sample.bob "resolve" "Thread" (Some "a1")
     = UsersService.userCan Sample.shared_store Sample.bob "update" "App" (Some "a1")
  /\ UsersService.userCan Sample.shared_store Sample.bob "resolve" "Thread" (Some "a1")
     = false.
Proof.
  assert (Hent : In "Thread" ["Thread"; "Comment"]) by (simpl; auto).
  destruct (@userCan_owner_on_threads_and_comments Sample.shared_store Sample.carol
              "resolve" "Thread" Hent) as [_ Howner].
  destruct (@userCan_owner_on_threads_and_comments Sample.shared_store Sample.bob
              "resolve" "Thread" Hent) as [Hsame _].
  split; [|split; [apply Hsame|reflexivity]].
  apply (Howner (App.mk "a1" "u3")).
  - simpl. auto.
  - reflexivity.
Defined.

(** X6, on the shared store: bob is found in the second organization,
    alice is not. *)
Lemma findByEmail_scoped_witness :
  UsersService.findByEmail Sample.shared_store "bob@acme.test" (Some "o2") = Some Sample.bob
  /\ UsersService.findByEmail Sample.shared_store "alice@acme.test" (Some "o2") = None
  /\ exists ou, In ou (organization_users Sample.shared_store)
                /\ OrganizationUser.userId ou = "u2"
                /\ OrganizationUser.organizationId ou = "o2"
                /\ OrganizationUser.status ou = "active".
Proof.
  split; [reflexivity|]. split; [reflexivity|].
  destruct (findByEmail_scoped Sample.shared_store "bob@acme.test") as [_ Hscoped].
  destruct (Hscoped "o2") as [Hsound _]; [discriminate|].
  destruct (Hsound Sample.bob eq_refl) as (_ & _ & Hou). exact Hou.
Defined.

End GrantsOnSample.

Section SessionsOnSample.
#[local] Existing Instance Sample.bcrypt.
#[local] Existing Instance Sample.jwt.
#[local] Existing Instance Sample.organizationsService.

(** X7, on the sample store: a login that returns and one that throws
    leave the world as it was. *)
Lemma sessions_never_write_witness :
  snd (AuthService.login (AuthService.mkLoginParams "alice@acme.test" "s3cret" None)
         Sample.world) = Sample.world
  /\ snd (AuthService.switchOrganization "o9" Sample.bob Sample.world) = Sample.world.
Proof.
  destruct (sessions_never_write Sample.world) as [Hlogin Hswitch]. split.
  - apply (Hlogin (AuthService.mkLoginParams "alice@acme.test" "s3cret" None)
             (fst (AuthService.login
                     (AuthService.mkLoginParams "alice@acme.test" "s3cret" None)
                     Sample.world))).
    apply surjective_pairing.
  - apply (Hswitch "o9" Sample.bob
             (fst (AuthService.switchOrganization "o9" Sample.bob Sample.world))).
    apply surjective_pairing.
Defined.

(** X8, on the shared store: bob switches to the second organization;
    alice, who is no member of it, is refused. *)
Lemma switchOrganization_needs_active_membership_witness :
  (exists session,
      AuthService.switchOrganization "o2" Sample.bob Sample.shared_world
      = (Ok session, Sample.shared_world)
      /\ AuthService.auth_token session
         = sign {| username := "u2"; sub := "bob@acme.test"; organizationId := "o2" |}
      /\ AuthService.organization_id session = "o2")
  /\ AuthService.switchOrganization "o2" Sample.alice Sample.shared_world
     = (Throw (UnauthorizedException "Invalid credentials"), Sample.shared_world).
Proof.
  split.
  - eexists. split; [cbv; reflexivity|].
    destruct (switchOrganization_needs_active_membership Sample.shared_world
                (newOrganizationId := "o2") Sample.bob) as [Hok _]; [discriminate|].
    edestruct Hok as (Htoken & Horg & _); [cbv; reflexivity|].
    split; [exact Htoken|exact Horg].
  - destruct (switchOrganization_needs_active_membership Sample.shared_world
                (newOrganizationId := "o2") Sample.alice) as [_ Hrefused]; [discriminate|].
    apply Hrefused. intros u ou Hu Hemail Hou Hid Horg. simpl in Hu, Hou.
    repeat (destruct Hu as [<-|Hu]; [try discriminate Hemail|]); [|destruct Hu].
    repeat (destruct Hou as [<-|Hou]; [try discriminate Hid; try discriminate Horg|]).
    destruct Hou.
Defined.

End SessionsOnSample.

Section AccountsOnSampleStore.
#[local] Existing Instance Sample.bcrypt.
#[local] Existing Instance Sample.uuid.
#[local] Existing Instance Sample.emailService.

(** X9, on the sample store: a user asked into a group the
    organization does not have is not created, and the group named is
    that one. *)
Lemma create_rolls_back_witness :
  exists w',
    UsersService.create (UsersService.mkUserParams "erin@acme.test" None None) "o1"
      (Some ["all_users"; "ghosts"]) Sample.world
    = (Throw (noSuchGroup "ghosts"), w')
    /\ db w' = Sample.store
    /\ outbox w' = [].
Proof.
  destruct (create_rolls_back (UsersService.mkUserParams "erin@acme.test" None None) "o1"
              Sample.world) as [_ Hgroups].
  destruct (Hgroups ["all_users"; "ghosts"])
    as (group & w' & Hin & Hnone & Hrun & Hdb & Hout).
  - exists "ghosts". split; [simpl; auto|reflexivity].
  - exists w'. simpl in Hin. destruct Hin as [<-|[<-|[]]].
    + discriminate Hnone.
    + auto.
Defined.


(** X11, on the sample store: alice is found, erin is created and then
    found. *)
Lemma findOrCreateByEmail_finds_or_creates_witness :
  UsersService.findOrCreateByEmail (UsersService.mkUserParams "alice@acme.test" None None)
    "o1" Sample.world
  = (Ok (Sample.alice, false), Sample.world)
  /\ exists user w',
       UsersService.findOrCreateByEmail
         (UsersService.mkUserParams "erin@acme.test" None None) "o1" Sample.world
       = (Ok (user, true), w')
       /\ UsersService.findByEmail (db w') "erin@acme.test" None = Some user.
Proof.
  split.
  - destruct (findOrCreateByEmail_finds_or_creates
                (UsersService.mkUserParams "alice@acme.test" None None) "o1" Sample.world)
      as [Hfound _].
    apply Hfound. reflexivity.
  - destruct (findOrCreateByEmail_finds_or_creates
                (UsersService.mkUserParams "erin@acme.test" None None) "o1" Sample.world)
      as [_ Hcreated].
    destruct Hcreated as (user & w' & Hrun & _ & _ & Hfind & _).
    + reflexivity.
    + exact sample_world_fresh.
    + discriminate.
    + discriminate.
    + exists user, w'. split; [exact Hrun|exact Hfind].
Defined.

(** X12, on the sample store: carol is added to 'admin'; of a list
    with a group that does not exist, that group is the one named. *)
Lemma addUserGroupPermissions_adds_witness :
  (exists w',
      UsersService.addUserGroupPermissions UsersService.Manager (Some Sample.carol)
        (Some ["admin"]) Sample.world
      = (Ok tt, w')
      /\ UsersService.hasGroup (db w') Sample.carol "admin" None = true)
  /\ exists w',
       UsersService.addUserGroupPermissions UsersService.Manager (Some Sample.carol)
         (Some ["all_users"; "ghosts"]) Sample.world
       = (Throw (noSuchGroup "ghosts"), w').
Proof.
  split.
  - destruct (@addUserGroupPermissions_adds Sample.uuid Sample.world UsersService.Manager
                Sample.carol "o1" eq_refl ["admin"]) as [Hadd _].
    destruct Hadd as (w' & rows & Hrun & _ & _ & _ & Hheld).
    + exact sample_world_fresh.
    + intros group [<-|[]]. exists Sample.admin_group. simpl. auto.
    + exists w'. split; [exact Hrun|]. apply Hheld. simpl. auto.
  - destruct (@addUserGroupPermissions_adds Sample.uuid Sample.world UsersService.Manager
                Sample.carol "o1" eq_refl ["all_users"; "ghosts"]) as [_ Hfail].
    destruct Hfail as (group & w' & Hin & Hmissing & Hrun & _).
    + exists "ghosts". split; [simpl; auto|].
      intros gp Hgp _. simpl in Hgp. destruct Hgp as [<-|[<-|[]]]; discriminate.
    + exists w'. simpl in Hin. destruct Hin as [<-|[<-|[]]]; [|exact Hrun].
      exfalso. apply (Hmissing Sample.all_users_group); simpl; auto.
Defined.

(** X13, on the sample store: alice leaves 'admin'; bob's rows stay. *)
Lemma removeUserGroupPermissionsIfExists_removes_witness :
  exists w',
    UsersService.removeUserGroupPermissionsIfExists UsersService.Manager (Some Sample.alice)
      (Some ["admin"]) Sample.world
    = (Ok tt, w')
    /\ UsersService.hasGroup (db w') Sample.alice "admin" None = false
    /\ UsersService.hasGroup (db w') Sample.bob "admin" None = true.
Proof.
  eexists. split; [cbv; reflexivity|].
  edestruct (@removeUserGroupPermissionsIfExists_removes Sample.world UsersService.Manager
               Sample.alice ["admin"]) as (_ & Hgone & _); [cbv; reflexivity|].
  split; [apply Hgone; simpl; auto|reflexivity].
Defined.

(** X14, on the sample store: nobody has the id. *)
Lemma update_unknown_user_witness :
  UsersService.update "u9"
    (UsersService.mkUpdateParams None (Some "pw") (Some "Nobody") None None None) None
    Sample.world
  = (Ok None, Sample.world).
Proof.
  assert (Hcolumn :
            UsersService.forgotPasswordToken
              (UsersService.mkUpdateParams None (Some "pw") (Some "Nobody") None None None)
            <> None
            \/ UsersService.firstName
                 (UsersService.mkUpdateParams None (Some "pw") (Some "Nobody") None None None)
               <> None
            \/ UsersService.lastName
                 (UsersService.mkUpdateParams None (Some "pw") (Some "Nobody") None None None)
               <> None
            \/ truthy_opt
                 (UsersService.password
                    (UsersService.mkUpdateParams None (Some "pw") (Some "Nobody") None None
                       None))
               = true)
    by (right; left; discriminate).
  destruct (@update_unknown_user Sample.bcrypt Sample.uuid Sample.world "u9" None
              (UsersService.mkUpdateParams None (Some "pw") (Some "Nobody") None None None)
              Hcolumn eq_refl eq_refl) as [Hnone _].
  apply Hnone. reflexivity.
Defined.

(** X15, on the sample store: bob forgets his password and resets it
    with the token he is mailed. *)
Lemma forgotPassword_token_resets_password_witness :
  exists w1 w2,
    AuthService.forgotPassword "bob@acme.test" Sample.world
    = sendPasswordResetEmail "bob@acme.test" "uuid-0" w1
    /\ AuthService.resetPassword "uuid-0" "n3w" w1 = (Ok tt, w2)
    /\ forall u2,
         In u2 (users (db w2)) ->
         User.id u2 = "u2" ->
         User.forgotPasswordToken u2 = None /\ User.password u2 = "$2b$n3w".
Proof.
  destruct (@forgotPassword_token_resets_password Sample.bcrypt Sample.uuid
              Sample.emailService Sample.world "bob@acme.test" Sample.bob eq_refl "n3w")
    as (w1 & Hforgot & _ & _ & w2 & Hreset & Hrow).
  - intros u Hin. simpl in Hin.
    repeat (destruct Hin as [<-|Hin]; [discriminate|]). destruct Hin.
  - exists w1, w2. split; [exact Hforgot|]. split; [exact Hreset|].
    intros u2 Hu2 Hid. destruct (Hrow u2 Hu2 Hid) as [Htok Hpw].
    split; [exact Htok|]. apply Hpw. discriminate.
Defined.

(** X16, on the sample store: carol's invitation cannot be used again. *)
Lemma invitation_token_is_single_use_witness :
  exists w',
    UsersService.setupAccountFromInvitationToken
      (UsersService.mkSetupParams None (Some "pw") "invite-3" None None None true)
      Sample.world
    = (Ok tt, w')
    /\ UsersService.setupAccountFromInvitationToken
         (UsersService.mkSetupParams None (Some "other") "invite-3" None None None true) w'
       = (Throw (BadRequestException "Invalid invitation link"), w').
Proof.
  eexists. split; [cbv; reflexivity|].
  eapply (@invitation_token_is_single_use Sample.world _
            (UsersService.mkSetupParams None (Some "pw") "invite-3" None None None true)).
  - cbv. reflexivity.
  - reflexivity.
  - reflexivity.
  - simpl. intros u1 u2 H1 H2 Ht1 Ht2.
    repeat (destruct H1 as [<-|H1]; [try discriminate Ht1|]); [|destruct H1].
    repeat (destruct H2 as [<-|H2]; [try discriminate Ht2|]); [|destruct H2].
    reflexivity.
Defined.

End AccountsOnSampleStore.

(** X17, on the props of an OAuth data source: the client secret input
    shows the client secret. *)
Lemma form_controls_show_what_they_edit_witness :
  exists e,
    Authentication.Authentication Sample.oauth_props = Some e
    /\ In ("client_secret", Authentication.Text (Some "s3cr3t")) (Authentication.controls e)
    /\ Authentication.prop Sample.oauth_props "client_secret"
       = Some (Authentication.Text (Some "s3cr3t")).
Proof.
  eexists. split; [reflexivity|].
  assert (Hin : In ("client_secret", Authentication.Text (Some "s3cr3t"))
                  (Authentication.controls
                     match Authentication.Authentication Sample.oauth_props with
                     | Some e => e
                     | None => Authentication.nothing
                     end))
    by (simpl; auto 10).
  split; [exact Hin|].
  exact (@form_controls_show_what_they_edit Sample.oauth_props _ _ _ eq_refl Hin).
Defined.

(** X18, on the props of an OAuth data source, and on props of an
    authentication type the form does not know. *)
Lemma form_by_auth_type_witness :
  (exists e,
      Authentication.Authentication Sample.oauth_props = Some e
      /\ map fst (Authentication.controls e)
         = ["grant_type"; "add_token_to"; "header_prefix"; "access_token_url"; "client_id";
            "client_secret"; "scopes"; "custom_query_params"; "auth_url";
            "custom_auth_params"; "client_auth"])
  /\ Authentication.Authentication
       (Authentication.mkProps (Some "digest") None None None None None None None None None
          None None None None None)
     = None.
Proof.
  split.
  - destruct (form_by_auth_type Sample.oauth_props) as [_ Hform].
    eexists. split; [reflexivity|]. edestruct Hform as [Hkeys _]; [reflexivity|].
    exact Hkeys.
  - apply (form_by_auth_type
             (Authentication.mkProps (Some "digest") None None None None None None None None
                None None None None None None)).
    intros (t & [= <-] & Hin). simpl in Hin. intuition discriminate.
Defined.
